(** * Chef TCO calculator: the cost model engine of [ui/src/lib/calculator.ts]

    A shallow embedding of the calculation engine (health metrics, cost
    breakdown, migration scenarios, report assembly) and the properties
    stated about it.

    Numbers.  The source computes on JavaScript numbers.  They are modelled
    as exact rationals extended with the three non-finite values a division
    by zero creates ([Infinity], [-Infinity], [NaN]), with the IEEE rules for
    those values.  Rounding, overflow and the sign of zero are not modelled:
    a finite result is the exact rational the formula denotes, and finite
    inputs never give a non-finite result but through a division by zero.
    Non-finite values enter as inputs ([unboundedSalaryData],
    [unboundedMigrationData]), where the source would also reach them by
    overflow.

    Strings.  The issue and recommendation messages are kept by template,
    with the numbers they interpolate; their formatting is not modelled. *)

From Stdlib Require Import QArith Qminmax Lqa List String Bool.
From Stdlib Require Import Sorted Permutation.
Import ListNotations.

Open Scope Q_scope.

(** ** JavaScript numbers *)

Inductive number : Type :=
| Fin (q : Q)
| PInf
| NInf
| NaN.

Definition Qltb (x y : Q) : bool := negb (Qle_bool y x).

Definition is_finite (x : number) : bool :=
  match x with Fin _ => true | _ => false end.

(** The rational a finite number stands for (0 for the others; only used
    next to [is_finite]). *)
Definition val (x : number) : Q :=
  match x with Fin q => q | _ => 0 end.

(** [x] is the finite number [q]. *)
Definition equals (x : number) (q : Q) : Prop :=
  match x with Fin p => p == q | _ => False end.

(** [x] and [y] are the same value: the same number, the same infinity, or
    both [NaN]. *)
Definition same_value (x y : number) : Prop :=
  match x, y with
  | Fin p, Fin q => p == q
  | PInf, PInf | NInf, NInf | NaN, NaN => True
  | _, _ => False
  end.

Definition neg (x : number) : number :=
  match x with
  | Fin q => Fin (- q)
  | PInf => NInf
  | NInf => PInf
  | NaN => NaN
  end.

Definition add (x y : number) : number :=
  match x, y with
  | NaN, _ | _, NaN => NaN
  | Fin p, Fin q => Fin (p + q)
  | PInf, NInf | NInf, PInf => NaN
  | PInf, _ | _, PInf => PInf
  | NInf, _ | _, NInf => NInf
  end.

Definition sub (x y : number) : number := add x (neg y).

(** The infinity carrying the sign of [q]; [NaN] when [q] is zero. *)
Definition signed_inf (q : Q) : number :=
  if Qltb 0 q then PInf else if Qltb q 0 then NInf else NaN.

Definition mul (x y : number) : number :=
  match x, y with
  | NaN, _ | _, NaN => NaN
  | Fin p, Fin q => Fin (p * q)
  | Fin p, PInf | PInf, Fin p => signed_inf p
  | Fin p, NInf | NInf, Fin p => signed_inf (- p)
  | PInf, PInf | NInf, NInf => PInf
  | PInf, NInf | NInf, PInf => NInf
  end.

Definition div (x y : number) : number :=
  match x, y with
  | NaN, _ | _, NaN => NaN
  | Fin p, Fin q => if Qeq_bool q 0 then signed_inf p else Fin (p / q)
  | Fin _, (PInf | NInf) => Fin 0
  | PInf, Fin q => if Qltb q 0 then NInf else PInf
  | NInf, Fin q => if Qltb q 0 then PInf else NInf
  | (PInf | NInf), (PInf | NInf) => NaN
  end.

(** [x <= y] and [x < y]; every comparison with [NaN] is false. *)
Definition leb (x y : number) : bool :=
  match x, y with
  | NaN, _ | _, NaN => false
  | Fin p, Fin q => Qle_bool p q
  | NInf, _ | _, PInf => true
  | PInf, _ | _, NInf => false
  end.

Definition ltb (x y : number) : bool :=
  match x, y with
  | NaN, _ | _, NaN => false
  | Fin p, Fin q => Qltb p q
  | PInf, _ | _, NInf => false
  | NInf, _ | _, PInf => true
  end.

Definition gtb (x y : number) : bool := ltb y x.
Definition geb (x y : number) : bool := leb y x.

(** [Math.max(x, y)]: [NaN] when an argument is. *)
Definition max (x y : number) : number :=
  match x, y with
  | NaN, _ | _, NaN => NaN
  | _, _ => if ltb x y then y else x
  end.

(** [Math.pow(x, n)] for a natural exponent. *)
Fixpoint pow (x : number) (n : nat) : number :=
  match n with
  | O => Fin 1
  | S O => x
  | S m => mul x (pow x m)
  end.

Declare Scope num_scope.
Delimit Scope num_scope with num.
Bind Scope num_scope with number.
Infix "+" := add : num_scope.
Infix "-" := sub : num_scope.
Infix "*" := mul : num_scope.
Infix "/" := div : num_scope.
Infix "<=?" := leb : num_scope.
Infix "<?" := ltb : num_scope.
Infix ">?" := gtb (at level 70) : num_scope.
Infix ">=?" := geb (at level 70) : num_scope.

(** ** Data model ([ui/src/lib/types.ts]) *)

Record InfrastructureData := {
  totalManagedNodes : number;
  productionNodes : number;
  stagingNodes : number;
  developmentNodes : number;
  chefServerCount : number;
  monthlyServerCost : number;
  chefRunIntervalMinutes : number
}.

Record CookbookData := {
  totalCookbooks : number;
  uniqueCookbookNames : number;
  activeCookbooks : number;
  tier1Simple : number;
  tier2Standard : number;
  tier3Complex : number;
  avgCookbooksPerNode : number
}.

Record TeamData := {
  dedicatedEngineers : number;
  partTimeContributors : number;
  partTimeAllocationPct : number;
  averageSalary : number;
  benefitsMultiplier : number
}.

Record IncidentData := {
  monthlyIncidents : number;
  averageMttrHours : number;
  engineersPerIncident : number
}.

Record LicensingData := {
  annualLicenseCost : number;
  negotiatedRatePerNode : number;
  annualTrainingBudget : number;
  monthlyCicdCost : number;
  annualContractorSpend : number
}.

Record OrganizationData := {
  infrastructure : InfrastructureData;
  cookbooks : CookbookData;
  team : TeamData;
  incidents : IncidentData;
  licensing : LicensingData
}.

Record TCOBreakdown := {
  licensingCost : number;
  infrastructureCost : number;
  platformLaborCost : number;
  distributedLaborCost : number;
  incidentCost : number;
  technicalDebtTax : number;
  trainingCost : number;
  contractorCost : number;
  opportunityCost : number;
  directCosts : number;
  laborCosts : number;
  totalAnnualTco : number
}.

Inductive HealthScore : Type := healthy | warning | critical.

(** The issue strings of [calculateHealthMetrics].  Each constructor stands
    for one template string of the source and carries the number the
    template interpolates (printed there with [toFixed]). *)
Inductive Issue : Type :=
| RatioCritical (ratio : number)
    (* "Cookbook ratio (R/1K nodes) is critical. Target: <25" *)
| RatioExceedsHealthy (ratio : number)
    (* "Cookbook ratio (R/1K nodes) exceeds healthy threshold. Target: <25" *)
| Understaffing (perFte : number)
    (* "FTE efficiency (N cookbooks/FTE) may indicate understaffing" *)
| LowFteEfficiency (perFte : number).
    (* "Low FTE efficiency (N cookbooks/FTE) suggests complexity" *)

Record HealthMetrics := {
  cookbookRatio : number;
  cookbooksPerFte : number;
  debtMultiplier : number;
  healthScore : HealthScore;
  issues : list Issue
}.

(** [keyof typeof BENCHMARKS.alternatives] *)
Inductive Platform : Type := ansible | kubernetes | terraform | puppet.

Inductive RiskLevel : Type := low | medium | high.

Record ScenarioResult := {
  name : string;
  platform : Platform;
  migrationCost : number;
  year1Cost : number;
  year2Cost : number;
  year3Cost : number;
  threeYearTotal : number;
  breakEvenMonths : option number;   (* [number | null] *)
  npv3Year : number;
  riskScore : RiskLevel;
  annualSavings : number;
  savingsPercent : number
}.

Record PerUnitCosts := {
  perNode : number;
  perCookbook : number;
  perFte : number
}.

(** The recommendation strings of [generateAnalysisReport], by template. *)
Inductive Recommendation : Type :=
| ConsolidateCookbooks (ratio : number)
| DebtTaxCost (tax : number)
| ConsiderScenario (scenario : string) (npv : number) (breakEven : option number)
| HighIncidentRate (perMonth : number).

Module Summary.
Record t := {
    totalNodes : number;
    activeCookbooks : number;
    annualTco : number;
    perNodeCost : number;
    perCookbookCost : number;
    healthScore : HealthScore
  }.
End Summary.

Record AnalysisReport := {
  summary : Summary.t;
  healthMetrics : HealthMetrics;
  costBreakdown : TCOBreakdown;
  perUnitCosts : PerUnitCosts;
  scenarios : list ScenarioResult;
  recommendations : list Recommendation
}.

(** ** Benchmarks and constants *)

Record DebtTier := { threshold : number; multiplier : number }.

Record PlatformConfig := {
  perNodeCost : number;
  migrationFactor : number;
  label : string
}.

Module BENCHMARKS.
Module healthThresholds.
Module cookbookRatio.
Definition healthy := Fin 25.
Definition warning := Fin 100.
Definition critical := Fin 500.
End cookbookRatio.
Module cookbooksPerFte.
Definition healthy := Fin 150.
Definition warning := Fin 75.
Definition critical := Fin 50.
End cookbooksPerFte.
Module runListSize.
Definition healthy := Fin 15.
Definition warning := Fin 30.
Definition critical := Fin 50.
End runListSize.
End healthThresholds.

Definition debtMultipliers : list DebtTier :=
    [ {| threshold := Fin 25;  multiplier := Fin 1.0 |};
      {| threshold := Fin 50;  multiplier := Fin 1.1 |};
      {| threshold := Fin 100; multiplier := Fin 1.25 |};
      {| threshold := Fin 250; multiplier := Fin 1.5 |};
      {| threshold := Fin 500; multiplier := Fin 2.0 |};
      {| threshold := PInf;    multiplier := Fin 2.5 |} ].

Module migration.
Definition tier1Hours := Fin 4.
Definition tier2Hours := Fin 16.
Definition tier3Hours := Fin 40.
Definition learningCurveMonths := Fin 6.
Definition learningCurvePenalty := Fin 0.2.
End migration.

Definition alternatives (p : Platform) : PlatformConfig :=
    match p with
    | ansible =>
        {| perNodeCost := Fin 75; migrationFactor := Fin 1.0; label := "Ansible" |}
    | kubernetes =>
        {| perNodeCost := Fin 30; migrationFactor := Fin 1.8;
           label := "Kubernetes/GitOps" |}
    | terraform =>
        {| perNodeCost := Fin 20; migrationFactor := Fin 1.2; label := "Terraform" |}
    | puppet =>
        {| perNodeCost := Fin 125; migrationFactor := Fin 0.7; label := "Puppet" |}
    end.

(** [Object.keys(BENCHMARKS.alternatives)], in insertion order. *)
Definition alternatives_keys : list Platform :=
    [ansible; kubernetes; terraform; puppet].
End BENCHMARKS.

(** ** The engine *)

Open Scope num_scope.

(** The [for ... of] scan of [getDebtMultiplier]: the first tier whose
    threshold the ratio does not exceed. *)
Fixpoint firstTier (tiers : list DebtTier) (cookbookRatio : number)
  : option number :=
  match tiers with
  | [] => None
  | t :: rest =>
      if cookbookRatio <=? threshold t then Some (multiplier t)
      else firstTier rest cookbookRatio
  end.

Definition getDebtMultiplier (cookbookRatio : number) : number :=
  match firstTier BENCHMARKS.debtMultipliers cookbookRatio with
  | Some multiplier => multiplier
  | None => Fin 2.5
  end.

(** Field updates of the mutable [metrics] object. *)
Definition set_cookbookRatio (m : HealthMetrics) (v : number) :=
  {| cookbookRatio := v; cookbooksPerFte := cookbooksPerFte m;
     debtMultiplier := debtMultiplier m; healthScore := healthScore m;
     issues := issues m |}.

Definition set_cookbooksPerFte (m : HealthMetrics) (v : number) :=
  {| cookbookRatio := cookbookRatio m; cookbooksPerFte := v;
     debtMultiplier := debtMultiplier m; healthScore := healthScore m;
     issues := issues m |}.

Definition set_debtMultiplier (m : HealthMetrics) (v : number) :=
  {| cookbookRatio := cookbookRatio m; cookbooksPerFte := cookbooksPerFte m;
     debtMultiplier := v; healthScore := healthScore m; issues := issues m |}.

Definition set_healthScore (m : HealthMetrics) (s : HealthScore) :=
  {| cookbookRatio := cookbookRatio m; cookbooksPerFte := cookbooksPerFte m;
     debtMultiplier := debtMultiplier m; healthScore := s; issues := issues m |}.

Definition push_issue (m : HealthMetrics) (i : Issue) :=
  {| cookbookRatio := cookbookRatio m; cookbooksPerFte := cookbooksPerFte m;
     debtMultiplier := debtMultiplier m; healthScore := healthScore m;
     issues := issues m ++ [i] |}.

(** [totalFte] of [calculateHealthMetrics]. *)
Definition totalFte (data : OrganizationData) : number :=
  dedicatedEngineers (team data) +
  partTimeContributors (team data) * (partTimeAllocationPct (team data) / Fin 100).

(** First [if / else if] of the health score (on the cookbook ratio). *)
Definition scoreCookbookRatio (metrics : HealthMetrics) : HealthMetrics :=
  if cookbookRatio metrics >? BENCHMARKS.healthThresholds.cookbookRatio.critical
  then push_issue (set_healthScore metrics critical)
         (RatioCritical (cookbookRatio metrics))
  else if cookbookRatio metrics >? BENCHMARKS.healthThresholds.cookbookRatio.healthy
  then push_issue (set_healthScore metrics warning)
         (RatioExceedsHealthy (cookbookRatio metrics))
  else metrics.

(** Second [if / else if] of the health score (on cookbooks per FTE). *)
Definition scoreFteEfficiency (metrics : HealthMetrics) : HealthMetrics :=
  if cookbooksPerFte metrics >? Fin 300
  then push_issue metrics (Understaffing (cookbooksPerFte metrics))
  else if cookbooksPerFte metrics <?
            BENCHMARKS.healthThresholds.cookbooksPerFte.critical
  then
    let metrics :=
      match healthScore metrics with
      | healthy => set_healthScore metrics warning
      | _ => metrics
      end in
    push_issue metrics (LowFteEfficiency (cookbooksPerFte metrics))
  else metrics.

Definition calculateHealthMetrics (data : OrganizationData) : HealthMetrics :=
  let metrics :=
    {| cookbookRatio := Fin 0; cookbooksPerFte := Fin 0;
       debtMultiplier := Fin 1.0; healthScore := healthy; issues := [] |} in
  (* Calculate cookbook ratio (per 1000 nodes) *)
  let metrics :=
    if totalManagedNodes (infrastructure data) >? Fin 0
    then set_cookbookRatio metrics
           ((activeCookbooks (cookbooks data) /
             totalManagedNodes (infrastructure data)) * Fin 1000)
    else metrics in
  (* Calculate cookbooks per FTE *)
  let totalFte := totalFte data in
  let metrics :=
    if totalFte >? Fin 0
    then set_cookbooksPerFte metrics (activeCookbooks (cookbooks data) / totalFte)
    else metrics in
  (* Get debt multiplier *)
  let metrics :=
    set_debtMultiplier metrics (getDebtMultiplier (cookbookRatio metrics)) in
  (* Determine health score *)
  let metrics := scoreCookbookRatio metrics in
  let metrics := scoreFteEfficiency metrics in
  metrics.

Definition calculateTCO (data : OrganizationData) (healthMetrics : HealthMetrics)
  : TCOBreakdown :=
  let fullyLoadedSalary :=
    averageSalary (team data) * benefitsMultiplier (team data) in
  (* Direct costs *)
  let licensingCost := annualLicenseCost (licensing data) in
  let infrastructureCost :=
    chefServerCount (infrastructure data) *
      monthlyServerCost (infrastructure data) * Fin 12 +
    monthlyCicdCost (licensing data) * Fin 12 in
  (* Labor costs *)
  let platformLaborCost := dedicatedEngineers (team data) * fullyLoadedSalary in
  let distributedLaborCost :=
    partTimeContributors (team data) *
      (partTimeAllocationPct (team data) / Fin 100) *
      fullyLoadedSalary in
  (* Incident cost *)
  let hourlyRate := fullyLoadedSalary / Fin 2080 in
  let incidentCost :=
    monthlyIncidents (incidents data) *
      Fin 12 *
      averageMttrHours (incidents data) *
      engineersPerIncident (incidents data) *
      hourlyRate in
  (* Technical debt tax *)
  let baseLaborCost := platformLaborCost + distributedLaborCost in
  let technicalDebtTax :=
    baseLaborCost * (debtMultiplier healthMetrics - Fin 1) in
  (* Other costs *)
  let trainingCost := annualTrainingBudget (licensing data) in
  let contractorCost := annualContractorSpend (licensing data) in
  (* Derived values *)
  let directCosts := licensingCost + infrastructureCost in
  let laborCosts := platformLaborCost + distributedLaborCost + incidentCost in
  let opportunityCost := laborCosts * Fin 0.15 in
  let totalAnnualTco :=
    licensingCost +
    infrastructureCost +
    platformLaborCost +
    distributedLaborCost +
    incidentCost +
    technicalDebtTax +
    trainingCost +
    contractorCost +
    opportunityCost in
  {| licensingCost := licensingCost;
     infrastructureCost := infrastructureCost;
     platformLaborCost := platformLaborCost;
     distributedLaborCost := distributedLaborCost;
     incidentCost := incidentCost;
     technicalDebtTax := technicalDebtTax;
     trainingCost := trainingCost;
     contractorCost := contractorCost;
     opportunityCost := opportunityCost;
     directCosts := directCosts;
     laborCosts := laborCosts;
     totalAnnualTco := totalAnnualTco |}.

Definition calculateMigrationCost (data : OrganizationData) (platform : Platform)
  : number :=
  let platformConfig := BENCHMARKS.alternatives platform in
  (* Calculate hours based on cookbook complexity *)
  let totalHours :=
    tier1Simple (cookbooks data) * BENCHMARKS.migration.tier1Hours +
    tier2Standard (cookbooks data) * BENCHMARKS.migration.tier2Hours +
    tier3Complex (cookbooks data) * BENCHMARKS.migration.tier3Hours in
  (* Apply platform factor *)
  let totalHours := totalHours * migrationFactor platformConfig in
  (* Calculate costs *)
  let hourlyRate :=
    (averageSalary (team data) * benefitsMultiplier (team data)) / Fin 2080 in
  let laborCost := totalHours * hourlyRate in
  let trainingCost := dedicatedEngineers (team data) * Fin 80 * hourlyRate in
  let learningCost :=
    dedicatedEngineers (team data) *
      ((averageSalary (team data) * benefitsMultiplier (team data)) / Fin 2) *
      BENCHMARKS.migration.learningCurvePenalty in
  let toolingCost := laborCost * Fin 0.1 in
  laborCost + trainingCost + learningCost + toolingCost.

(** [discountRate] is the optional fourth parameter (default [0.1]). *)
Definition calculateScenario (data : OrganizationData) (tco : TCOBreakdown)
    (platform : Platform) (discountRate : option number) : ScenarioResult :=
  let discountRate :=
    match discountRate with Some r => r | None => Fin 0.1 end in
  let currentTco := totalAnnualTco tco in
  let migrationCost := calculateMigrationCost data platform in
  let platformConfig := BENCHMARKS.alternatives platform in
  (* New platform costs *)
  let newLicenseCost :=
    totalManagedNodes (infrastructure data) * perNodeCost platformConfig in
  let laborReduction := Fin 0.3 in
  let newLaborCost := laborCosts tco * (Fin 1 - laborReduction) in
  let newInfraCost := infrastructureCost tco * Fin 0.7 in
  (* Year costs *)
  let year1Cost :=
    migrationCost +
    newLicenseCost * Fin 0.5 +
    licensingCost tco * Fin 0.5 +
    laborCosts tco * Fin 1.2 +
    newInfraCost in
  let year2Cost :=
    newLicenseCost + newLaborCost * Fin 1.1 + newInfraCost +
    trainingCost tco * Fin 0.5 in
  let year3Cost := newLicenseCost + newLaborCost + newInfraCost * Fin 0.9 in
  let threeYearTotal := year1Cost + year2Cost + year3Cost in
  (* Breakeven *)
  let annualSavings := currentTco - year3Cost in
  let breakEvenMonths :=
    if annualSavings >? Fin 0
    then Some ((migrationCost / annualSavings) * Fin 12)
    else None in
  (* NPV *)
  let savingsY1 := (currentTco - year1Cost) / (Fin 1 + discountRate) in
  let savingsY2 := (currentTco - year2Cost) / pow (Fin 1 + discountRate) 2 in
  let savingsY3 := (currentTco - year3Cost) / pow (Fin 1 + discountRate) 3 in
  let npv3Year := savingsY1 + savingsY2 + savingsY3 in
  (* Risk *)
  let riskScore :=
    match platform with
    | kubernetes => high
    | puppet => low
    | _ => medium
    end in
  let current3Year := currentTco * Fin 3 in
  let savingsPercent :=
    ((current3Year - threeYearTotal) / current3Year) * Fin 100 in
  {| name := String.append "Migration to " (label platformConfig);
     platform := platform;
     migrationCost := migrationCost;
     year1Cost := year1Cost;
     year2Cost := year2Cost;
     year3Cost := year3Cost;
     threeYearTotal := threeYearTotal;
     breakEvenMonths := breakEvenMonths;
     npv3Year := npv3Year;
     riskScore := riskScore;
     annualSavings := annualSavings;
     savingsPercent := savingsPercent |}.

(** [Array.prototype.sort(comparefn)]: a stable sort; [x] is placed before
    [y] when [comparefn(x, y) < 0], and a [NaN] result counts as [0].  The
    elements are inserted one by one, each behind those it does not
    precede.  For a consistent comparator (here: finite keys) this is the
    order every engine gives.  When [comparefn] returns [NaN] for some pair
    the order of the result is left to the engine; the result still has
    the same elements. *)
Section ArraySort.
Context {A : Type} (comparefn : A -> A -> number).

Fixpoint sort_insert (x : A) (sorted : list A) : list A :=
    match sorted with
    | [] => [x]
    | y :: rest =>
        if comparefn x y <? Fin 0 then x :: y :: rest
        else y :: sort_insert x rest
    end.

Definition Array_sort (l : list A) : list A :=
    fold_left (fun sorted x => sort_insert x sorted) l [].
End ArraySort.

Definition push {A : Type} (l : list A) (x : A) : list A := l ++ [x].

Definition generateAnalysisReport (data : OrganizationData) : AnalysisReport :=
  let healthMetrics := calculateHealthMetrics data in
  let costBreakdown := calculateTCO data healthMetrics in
  let perUnitCosts :=
    {| perNode :=
         totalAnnualTco costBreakdown /
         max (Fin 1) (totalManagedNodes (infrastructure data));
       perCookbook :=
         totalAnnualTco costBreakdown /
         max (Fin 1) (activeCookbooks (cookbooks data));
       perFte :=
         totalAnnualTco costBreakdown /
         max (Fin 1) (dedicatedEngineers (team data)) |} in
  let scenarios :=
    map (fun platform => calculateScenario data costBreakdown platform None)
        BENCHMARKS.alternatives_keys in
  (* Sort by NPV *)
  let scenarios :=
    Array_sort (fun a b => npv3Year b - npv3Year a) scenarios in
  (* Generate recommendations *)
  let recommendations : list Recommendation := [] in
  let recommendations :=
    if cookbookRatio healthMetrics >? Fin 100
    then push recommendations (ConsolidateCookbooks (cookbookRatio healthMetrics))
    else recommendations in
  let recommendations :=
    if debtMultiplier healthMetrics >=? Fin 1.5
    then push recommendations (DebtTaxCost (technicalDebtTax costBreakdown))
    else recommendations in
  let recommendations :=
    match scenarios with
    | bestScenario :: _ =>
        if npv3Year bestScenario >? Fin 0
        then push recommendations
               (ConsiderScenario (name bestScenario) (npv3Year bestScenario)
                  (breakEvenMonths bestScenario))
        else recommendations
    | [] => recommendations
    end in
  let recommendations :=
    if monthlyIncidents (incidents data) >? Fin 20
    then push recommendations (HighIncidentRate (monthlyIncidents (incidents data)))
    else recommendations in
  {| summary :=
       {| Summary.totalNodes := totalManagedNodes (infrastructure data);
          Summary.activeCookbooks := activeCookbooks (cookbooks data);
          Summary.annualTco := totalAnnualTco costBreakdown;
          Summary.perNodeCost := perNode perUnitCosts;
          Summary.perCookbookCost := perCookbook perUnitCosts;
          Summary.healthScore := healthScore healthMetrics |};
     healthMetrics := healthMetrics;
     costBreakdown := costBreakdown;
     perUnitCosts := perUnitCosts;
     scenarios := scenarios;
     recommendations := recommendations |}.

(** ** Inputs of the examples *)

(** [sampleData] of [ui/src/data/sampleData.ts], the reference snapshot. *)
Definition sampleData : OrganizationData :=
  {| infrastructure :=
       {| totalManagedNodes := Fin 200000; productionNodes := Fin 150000;
          stagingNodes := Fin 30000; developmentNodes := Fin 20000;
          chefServerCount := Fin 12; monthlyServerCost := Fin 4000;
          chefRunIntervalMinutes := Fin 30 |};
     cookbooks :=
       {| totalCookbooks := Fin 90000; uniqueCookbookNames := Fin 15000;
          activeCookbooks := Fin 12000; tier1Simple := Fin 7200;
          tier2Standard := Fin 3600; tier3Complex := Fin 1200;
          avgCookbooksPerNode := Fin 8 |};
     team :=
       {| dedicatedEngineers := Fin 45; partTimeContributors := Fin 120;
          partTimeAllocationPct := Fin 20; averageSalary := Fin 165000;
          benefitsMultiplier := Fin 1.4 |};
     incidents :=
       {| monthlyIncidents := Fin 25; averageMttrHours := Fin 6;
          engineersPerIncident := Fin 2.5 |};
     licensing :=
       {| annualLicenseCost := Fin 11000000; negotiatedRatePerNode := Fin 55;
          annualTrainingBudget := Fin 150000; monthlyCicdCost := Fin 15000;
          annualContractorSpend := Fin 500000 |} |}.

(** A snapshot with every field zero. *)
Definition zeroData : OrganizationData :=
  let z := Fin 0 in
  {| infrastructure :=
       {| totalManagedNodes := z; productionNodes := z; stagingNodes := z;
          developmentNodes := z; chefServerCount := z; monthlyServerCost := z;
          chefRunIntervalMinutes := z |};
     cookbooks :=
       {| totalCookbooks := z; uniqueCookbookNames := z; activeCookbooks := z;
          tier1Simple := z; tier2Standard := z; tier3Complex := z;
          avgCookbooksPerNode := z |};
     team :=
       {| dedicatedEngineers := z; partTimeContributors := z;
          partTimeAllocationPct := z; averageSalary := z;
          benefitsMultiplier := z |};
     incidents :=
       {| monthlyIncidents := z; averageMttrHours := z;
          engineersPerIncident := z |};
     licensing :=
       {| annualLicenseCost := z; negotiatedRatePerNode := z;
          annualTrainingBudget := z; monthlyCicdCost := z;
          annualContractorSpend := z |} |}.

(** 200 active cookbooks on 1000 nodes kept by one engineer: cookbook ratio
    200 per 1K nodes, 200 cookbooks per FTE. *)
Definition sprawlData : OrganizationData :=
  let z := Fin 0 in
  {| infrastructure :=
       {| totalManagedNodes := Fin 1000; productionNodes := Fin 1000;
          stagingNodes := z; developmentNodes := z; chefServerCount := Fin 1;
          monthlyServerCost := Fin 4000; chefRunIntervalMinutes := Fin 30 |};
     cookbooks :=
       {| totalCookbooks := Fin 200; uniqueCookbookNames := Fin 200;
          activeCookbooks := Fin 200; tier1Simple := Fin 200;
          tier2Standard := z; tier3Complex := z; avgCookbooksPerNode := Fin 8 |};
     team :=
       {| dedicatedEngineers := Fin 1; partTimeContributors := z;
          partTimeAllocationPct := z; averageSalary := Fin 165000;
          benefitsMultiplier := Fin 1.4 |};
     incidents :=
       {| monthlyIncidents := z; averageMttrHours := z;
          engineersPerIncident := z |};
     licensing :=
       {| annualLicenseCost := Fin 55000; negotiatedRatePerNode := Fin 55;
          annualTrainingBudget := z; monthlyCicdCost := z;
          annualContractorSpend := z |} |}.

(** 100 active cookbooks on 10000 nodes kept by one engineer: cookbook ratio
    10 per 1K nodes, 100 cookbooks per FTE. *)
Definition lowEfficiencyData : OrganizationData :=
  let z := Fin 0 in
  {| infrastructure :=
       {| totalManagedNodes := Fin 10000; productionNodes := Fin 10000;
          stagingNodes := z; developmentNodes := z; chefServerCount := Fin 1;
          monthlyServerCost := Fin 4000; chefRunIntervalMinutes := Fin 30 |};
     cookbooks :=
       {| totalCookbooks := Fin 100; uniqueCookbookNames := Fin 100;
          activeCookbooks := Fin 100; tier1Simple := Fin 100;
          tier2Standard := z; tier3Complex := z; avgCookbooksPerNode := Fin 8 |};
     team :=
       {| dedicatedEngineers := Fin 1; partTimeContributors := z;
          partTimeAllocationPct := z; averageSalary := Fin 165000;
          benefitsMultiplier := Fin 1.4 |};
     incidents :=
       {| monthlyIncidents := z; averageMttrHours := z;
          engineersPerIncident := z |};
     licensing :=
       {| annualLicenseCost := Fin 550000; negotiatedRatePerNode := Fin 55;
          annualTrainingBudget := z; monthlyCicdCost := z;
          annualContractorSpend := z |} |}.

(** 400 active cookbooks on 1000 nodes kept by one engineer: cookbook ratio
    400 per 1K nodes, 400 cookbooks per FTE. *)
Definition understaffedData : OrganizationData :=
  let z := Fin 0 in
  {| infrastructure :=
       {| totalManagedNodes := Fin 1000; productionNodes := Fin 1000;
          stagingNodes := z; developmentNodes := z; chefServerCount := Fin 1;
          monthlyServerCost := Fin 4000; chefRunIntervalMinutes := Fin 30 |};
     cookbooks :=
       {| totalCookbooks := Fin 400; uniqueCookbookNames := Fin 400;
          activeCookbooks := Fin 400; tier1Simple := Fin 400;
          tier2Standard := z; tier3Complex := z; avgCookbooksPerNode := Fin 8 |};
     team :=
       {| dedicatedEngineers := Fin 1; partTimeContributors := z;
          partTimeAllocationPct := z; averageSalary := Fin 165000;
          benefitsMultiplier := Fin 1.4 |};
     incidents :=
       {| monthlyIncidents := z; averageMttrHours := z;
          engineersPerIncident := z |};
     licensing :=
       {| annualLicenseCost := Fin 55000; negotiatedRatePerNode := Fin 55;
          annualTrainingBudget := z; monthlyCicdCost := z;
          annualContractorSpend := z |} |}.

(** A licence bill and nothing else: no nodes, no cookbooks to migrate, no
    team. *)
Definition licenseOnlyData : OrganizationData :=
  let z := Fin 0 in
  {| infrastructure :=
       {| totalManagedNodes := z; productionNodes := z; stagingNodes := z;
          developmentNodes := z; chefServerCount := z; monthlyServerCost := z;
          chefRunIntervalMinutes := z |};
     cookbooks :=
       {| totalCookbooks := z; uniqueCookbookNames := z; activeCookbooks := z;
          tier1Simple := z; tier2Standard := z; tier3Complex := z;
          avgCookbooksPerNode := z |};
     team :=
       {| dedicatedEngineers := z; partTimeContributors := z;
          partTimeAllocationPct := z; averageSalary := z;
          benefitsMultiplier := z |};
     incidents :=
       {| monthlyIncidents := z; averageMttrHours := z;
          engineersPerIncident := z |};
     licensing :=
       {| annualLicenseCost := Fin 100; negotiatedRatePerNode := z;
          annualTrainingBudget := z; monthlyCicdCost := z;
          annualContractorSpend := z |} |}.

(** A licence bill and an unbounded salary for a team of nobody: the platform
    labor cost is [0 * Infinity], which is [NaN]. *)
Definition unboundedSalaryData : OrganizationData :=
  let z := Fin 0 in
  {| infrastructure :=
       {| totalManagedNodes := z; productionNodes := z; stagingNodes := z;
          developmentNodes := z; chefServerCount := z; monthlyServerCost := z;
          chefRunIntervalMinutes := z |};
     cookbooks :=
       {| totalCookbooks := z; uniqueCookbookNames := z; activeCookbooks := z;
          tier1Simple := z; tier2Standard := z; tier3Complex := z;
          avgCookbooksPerNode := z |};
     team :=
       {| dedicatedEngineers := z; partTimeContributors := z;
          partTimeAllocationPct := z; averageSalary := PInf;
          benefitsMultiplier := Fin 1.4 |};
     incidents :=
       {| monthlyIncidents := z; averageMttrHours := z;
          engineersPerIncident := z |};
     licensing :=
       {| annualLicenseCost := Fin 100; negotiatedRatePerNode := z;
          annualTrainingBudget := z; monthlyCicdCost := z;
          annualContractorSpend := z |} |}.

(** The reference snapshot with an unbounded number of simple cookbooks to
    migrate. *)
Definition unboundedMigrationData : OrganizationData :=
  {| infrastructure := infrastructure sampleData;
     cookbooks :=
       {| totalCookbooks := Fin 90000; uniqueCookbookNames := Fin 15000;
          activeCookbooks := Fin 12000; tier1Simple := PInf;
          tier2Standard := Fin 3600; tier3Complex := Fin 1200;
          avgCookbooksPerNode := Fin 8 |};
     team := team sampleData;
     incidents := incidents sampleData;
     licensing := licensing sampleData |}.

(** ** Numeric snapshots *)

(** Every field is a finite number. *)
Definition finite_data (d : OrganizationData) : bool :=
  forallb is_finite
    [ totalManagedNodes (infrastructure d); productionNodes (infrastructure d);
      stagingNodes (infrastructure d); developmentNodes (infrastructure d);
      chefServerCount (infrastructure d); monthlyServerCost (infrastructure d);
      chefRunIntervalMinutes (infrastructure d);
      totalCookbooks (cookbooks d); uniqueCookbookNames (cookbooks d);
      activeCookbooks (cookbooks d); tier1Simple (cookbooks d);
      tier2Standard (cookbooks d); tier3Complex (cookbooks d);
      avgCookbooksPerNode (cookbooks d);
      dedicatedEngineers (team d); partTimeContributors (team d);
      partTimeAllocationPct (team d); averageSalary (team d);
      benefitsMultiplier (team d);
      monthlyIncidents (incidents d); averageMttrHours (incidents d);
      engineersPerIncident (incidents d);
      annualLicenseCost (licensing d); negotiatedRatePerNode (licensing d);
      annualTrainingBudget (licensing d); monthlyCicdCost (licensing d);
      annualContractorSpend (licensing d) ].

Definition finite_tco (t : TCOBreakdown) : bool :=
  forallb is_finite
    [ licensingCost t; infrastructureCost t; platformLaborCost t;
      distributedLaborCost t; incidentCost t; technicalDebtTax t;
      trainingCost t; contractorCost t; opportunityCost t; directCosts t;
      laborCosts t; totalAnnualTco t ].

(** The score the first [if / else if] of [calculateHealthMetrics] sets, as a
    function of the cookbook ratio. *)
Definition ratioScore (ratio : number) : HealthScore :=
  if ratio >? Fin 500 then critical
  else if ratio >? Fin 25 then warning
  else healthy.

(** The issues the same [if / else if] pushes. *)
Definition ratioIssues (ratio : number) : list Issue :=
  if ratio >? Fin 500 then [RatioCritical ratio]
  else if ratio >? Fin 25 then [RatioExceedsHealthy ratio]
  else [].

(** [a.npv3Year >= b.npv3Year] *)
Definition npv_geb (a b : ScenarioResult) : bool := npv3Year a >=? npv3Year b.

(** 600 active cookbooks on 1000 nodes kept by four engineers: cookbook
    ratio 600 per 1K nodes, 150 cookbooks per FTE. *)
Definition fragmentedData : OrganizationData :=
  let z := Fin 0 in
  {| infrastructure :=
       {| totalManagedNodes := Fin 1000; productionNodes := Fin 1000;
          stagingNodes := z; developmentNodes := z; chefServerCount := Fin 1;
          monthlyServerCost := Fin 4000; chefRunIntervalMinutes := Fin 30 |};
     cookbooks :=
       {| totalCookbooks := Fin 600; uniqueCookbookNames := Fin 600;
          activeCookbooks := Fin 600; tier1Simple := Fin 600;
          tier2Standard := z; tier3Complex := z; avgCookbooksPerNode := Fin 8 |};
     team :=
       {| dedicatedEngineers := Fin 4; partTimeContributors := z;
          partTimeAllocationPct := z; averageSalary := Fin 165000;
          benefitsMultiplier := Fin 1.4 |};
     incidents :=
       {| monthlyIncidents := Fin 2; averageMttrHours := Fin 4;
          engineersPerIncident := Fin 2 |};
     licensing :=
       {| annualLicenseCost := Fin 55000; negotiatedRatePerNode := Fin 55;
          annualTrainingBudget := z; monthlyCicdCost := z;
          annualContractorSpend := z |} |}.

(** ** Non-negative snapshots *)

Definition nonneg (x : number) : bool := is_finite x && (Fin 0 <=? x).

(** Every field is a finite number that is not negative. *)
Definition nonneg_data (d : OrganizationData) : bool :=
  forallb nonneg
    [ totalManagedNodes (infrastructure d); productionNodes (infrastructure d);
      stagingNodes (infrastructure d); developmentNodes (infrastructure d);
      chefServerCount (infrastructure d); monthlyServerCost (infrastructure d);
      chefRunIntervalMinutes (infrastructure d);
      totalCookbooks (cookbooks d); uniqueCookbookNames (cookbooks d);
      activeCookbooks (cookbooks d); tier1Simple (cookbooks d);
      tier2Standard (cookbooks d); tier3Complex (cookbooks d);
      avgCookbooksPerNode (cookbooks d);
      dedicatedEngineers (team d); partTimeContributors (team d);
      partTimeAllocationPct (team d); averageSalary (team d);
      benefitsMultiplier (team d);
      monthlyIncidents (incidents d); averageMttrHours (incidents d);
      engineersPerIncident (incidents d);
      annualLicenseCost (licensing d); negotiatedRatePerNode (licensing d);
      annualTrainingBudget (licensing d); monthlyCicdCost (licensing d);
      annualContractorSpend (licensing d) ].

Definition nonneg_tco (t : TCOBreakdown) : bool :=
  forallb nonneg
    [ licensingCost t; infrastructureCost t; platformLaborCost t;
      distributedLaborCost t; incidentCost t; technicalDebtTax t;
      trainingCost t; contractorCost t; opportunityCost t; directCosts t;
      laborCosts t; totalAnnualTco t ].

(** ** Benchmarks page ([ui/src/pages/Benchmarks.tsx]) *)

(** The four status functions of the [Benchmarks] component, closed over its
    [report] property. *)
Definition getCookbookRatioStatus (report : AnalysisReport) : HealthScore :=
  if cookbookRatio (healthMetrics report) >?
       BENCHMARKS.healthThresholds.cookbookRatio.critical then critical
  else if cookbookRatio (healthMetrics report) >?
            BENCHMARKS.healthThresholds.cookbookRatio.healthy then warning
  else healthy.

Definition getFteEfficiencyStatus (report : AnalysisReport) : HealthScore :=
  if cookbooksPerFte (healthMetrics report) <?
       BENCHMARKS.healthThresholds.cookbooksPerFte.critical then critical
  else if cookbooksPerFte (healthMetrics report) <?
            BENCHMARKS.healthThresholds.cookbooksPerFte.healthy then warning
  else healthy.

Definition getDebtMultiplierStatus (report : AnalysisReport) : HealthScore :=
  if debtMultiplier (healthMetrics report) >? Fin 1.5 then critical
  else if debtMultiplier (healthMetrics report) >? Fin 1.0 then warning
  else healthy.

Definition perNodeCostStatus (report : AnalysisReport) : HealthScore :=
  if Summary.perNodeCost (summary report) >? Fin 200 then critical
  else if Summary.perNodeCost (summary report) >? Fin 100 then warning
  else healthy.

(** [isActive] of each card of the debt multiplier scale
    ([BENCHMARKS.debtMultipliers.map((level, index) => ...)]). *)
Definition debtScale_isActive (report : AnalysisReport) : list bool :=
  map (fun '((index, level) : nat * DebtTier) =>
         let prevThreshold :=
           if Nat.ltb 0 index
           then threshold (nth (index - 1) BENCHMARKS.debtMultipliers level)
           else Fin 0 in
         (cookbookRatio (healthMetrics report) >? prevThreshold) &&
         (cookbookRatio (healthMetrics report) <=? threshold level))
      (combine (seq 0 (List.length BENCHMARKS.debtMultipliers))
               BENCHMARKS.debtMultipliers).

(** ** Charts ([ui/src/components/Charts.tsx]) *)

Definition Math_max (x y : number) : number := max x y.

(** [Math.min(x, y)]: [NaN] when an argument is. *)
Definition Math_min (x y : number) : number :=
  match x, y with
  | NaN, _ | _, NaN => NaN
  | _, _ => if y <? x then y else x
  end.

Module COLORS.
Module status.
Definition healthy : string := "#22c55e".
Definition warning : string := "#f59e0b".
Definition critical : string := "#ef4444".
End status.
End COLORS.

(** The key of a platform in [BENCHMARKS.alternatives]. *)
Definition platformKey (p : Platform) : string :=
  match p with
  | ansible => "ansible"
  | kubernetes => "kubernetes"
  | terraform => "terraform"
  | puppet => "puppet"
  end.

(** [c.toUpperCase()] on an ASCII character. *)
Definition toUpperCase (c : Ascii.ascii) : Ascii.ascii :=
  let n := Ascii.nat_of_ascii c in
  if Nat.leb 97 n && Nat.leb n 122 then Ascii.ascii_of_nat (n - 32) else c.

(** [s.charAt(0).toUpperCase() + s.slice(1)] *)
Definition capitalize (s : string) : string :=
  match s with
  | EmptyString => EmptyString
  | String c rest => String (toUpperCase c) rest
  end.

Module Bars.
Record t := {
  name : string;
  year1 : number;   (* 'Year 1' *)
  year2 : number;   (* 'Year 2' *)
  year3 : number;   (* 'Year 3' *)
  total : number
}.
End Bars.

(** [chartData] of [ScenarioComparisonChart]. *)
Definition ScenarioComparisonChart_chartData
    (scenarios : list ScenarioResult) (currentTco : number) : list Bars.t :=
  {| Bars.name := String.append "Current" (String (Ascii.ascii_of_nat 10) "(Chef)");
     Bars.year1 := currentTco;
     Bars.year2 := currentTco * Fin 1.05;
     Bars.year3 := currentTco * Fin 1.1;
     Bars.total := currentTco * Fin 3.15 |}
  :: map (fun s =>
            {| Bars.name := capitalize (platformKey (platform s));
               Bars.year1 := year1Cost s;
               Bars.year2 := year2Cost s;
               Bars.year3 := year3Cost s;
               Bars.total := threeYearTotal s |})
         scenarios.

(** [point[key] = v] on the platform keys of a chart point: an existing key
    keeps its place and takes the new value, a new key goes last. *)
Definition Platform_eqb (p q : Platform) : bool :=
  match p, q with
  | ansible, ansible | kubernetes, kubernetes
  | terraform, terraform | puppet, puppet => true
  | _, _ => false
  end.

Fixpoint point_set (point : list (Platform * number)) (k : Platform) (v : number)
  : list (Platform * number) :=
  match point with
  | [] => [(k, v)]
  | (k', v') :: rest =>
      if Platform_eqb k' k then (k', v) :: rest
      else (k', v') :: point_set rest k v
  end.

Fixpoint point_get (point : list (Platform * number)) (k : Platform)
  : option number :=
  match point with
  | [] => None
  | (k', v') :: rest => if Platform_eqb k' k then Some v' else point_get rest k
  end.

(** A point of the timeline: the ['year'] and ['Current (Chef)'] keys and
    the platform keys. *)
Record TimelinePoint := {
  year : string;
  currentChef : number;
  series : list (Platform * number)
}.

(** [chartData] of [TimelineChart]. *)
Definition TimelineChart_chartData
    (scenarios : list ScenarioResult) (currentTco : number)
  : list TimelinePoint :=
  let years := ["Year 0"; "Year 1"; "Year 2"; "Year 3"]%string in
  map (fun '((index, year) : nat * string) =>
         if Nat.eqb index 0
         then
           {| year := year;
              currentChef := Fin 0;
              series :=
                fold_left (fun point s => point_set point (platform s) (Fin 0))
                  scenarios [] |}
         else
           let i := Fin (inject_Z (Z.of_nat index)) in
           let currentCumulative :=
             currentTco * i * (Fin 1 + (i - Fin 1) * Fin 0.025) in
           {| year := year;
              currentChef := currentCumulative;
              series :=
                fold_left
                  (fun point s =>
                     let cumulative := Fin 0 in
                     let cumulative :=
                       if Nat.leb 1 index then cumulative + year1Cost s
                       else cumulative in
                     let cumulative :=
                       if Nat.leb 2 index then cumulative + year2Cost s
                       else cumulative in
                     let cumulative :=
                       if Nat.leb 3 index then cumulative + year3Cost s
                       else cumulative in
                     point_set point (platform s) cumulative)
                  scenarios [] |})
      (combine (seq 0 (List.length years)) years).

(** The values [BenchmarkGauge] computes for its bar. *)
Record Gauge := {
  percentage : number;
  healthyPct : number;
  warningPct : number;
  gaugeColor : string
}.

Definition BenchmarkGauge (value min max healthyThreshold warningThreshold : number)
  : Gauge :=
  {| percentage :=
       Math_min (Fin 100)
         (Math_max (Fin 0) (((value - min) / (max - min)) * Fin 100));
     healthyPct := ((healthyThreshold - min) / (max - min)) * Fin 100;
     warningPct := ((warningThreshold - min) / (max - min)) * Fin 100;
     gaugeColor :=
       if value >? warningThreshold then COLORS.status.critical
       else if value >? healthyThreshold then COLORS.status.warning
       else COLORS.status.healthy |}.

(** ** Scenarios page ([ui/src/pages/Scenarios.tsx]) *)

(** [savingsVsCurrent] of [ScenarioCard]. *)
Definition savingsVsCurrent (scenario : ScenarioResult) (currentTco : number)
  : number :=
  currentTco * Fin 3 - threeYearTotal scenario.

(** The initial [selectedPlatform]: [scenarios[0]?.platform || 'ansible']. *)
Definition initialSelectedPlatform (scenarios : list ScenarioResult) : Platform :=
  match scenarios with
  | s :: _ => platform s
  | [] => ansible
  end.

(** [scenarios.find((s) => s.platform === selectedPlatform)] *)
Definition selectedScenario
    (scenarios : list ScenarioResult) (selectedPlatform : Platform)
  : option ScenarioResult :=
  find (fun s => Platform_eqb (platform s) selectedPlatform) scenarios.

(** * Properties *)

(** ** Comparisons *)

Lemma Qltb_lt (x y : Q) : Qltb x y = true <-> (x < y)%Q.
Proof.
  unfold Qltb. rewrite negb_true_iff. split.
  - intros H. apply Qnot_le_lt. intros Hle.
    apply Qle_bool_iff in Hle. congruence.
  - intros H. destruct (Qle_bool y x) eqn:E; [|reflexivity].
    apply Qle_bool_iff in E. exfalso. exact (Qlt_not_le _ _ H E).
Qed.

Lemma Qltb_ge (x y : Q) : Qltb x y = false <-> (y <= x)%Q.
Proof.
  unfold Qltb. rewrite negb_false_iff. apply Qle_bool_iff.
Qed.

(** ** Health score *)

Lemma scoreCookbookRatio_score (m : HealthMetrics) :
  healthScore m = healthy ->
  healthScore (scoreCookbookRatio m) = ratioScore (cookbookRatio m).
Proof.
  intros H. unfold scoreCookbookRatio, ratioScore.
  change BENCHMARKS.healthThresholds.cookbookRatio.critical with (Fin 500).
  change BENCHMARKS.healthThresholds.cookbookRatio.healthy with (Fin 25).
  destruct (cookbookRatio m >? Fin 500); [reflexivity|].
  destruct (cookbookRatio m >? Fin 25); [reflexivity|exact H].
Qed.

Lemma scoreCookbookRatio_issues (m : HealthMetrics) :
  issues (scoreCookbookRatio m) = issues m ++ ratioIssues (cookbookRatio m).
Proof.
  unfold scoreCookbookRatio, ratioIssues.
  change BENCHMARKS.healthThresholds.cookbookRatio.critical with (Fin 500).
  change BENCHMARKS.healthThresholds.cookbookRatio.healthy with (Fin 25).
  destruct (cookbookRatio m >? Fin 500); [reflexivity|].
  destruct (cookbookRatio m >? Fin 25); [reflexivity|].
  simpl. now rewrite app_nil_r.
Qed.

Lemma scoreCookbookRatio_fields (m : HealthMetrics) :
  cookbookRatio (scoreCookbookRatio m) = cookbookRatio m /\
  cookbooksPerFte (scoreCookbookRatio m) = cookbooksPerFte m /\
  debtMultiplier (scoreCookbookRatio m) = debtMultiplier m.
Proof.
  unfold scoreCookbookRatio.
  destruct (_ >? _); [now simpl|]. destruct (_ >? _); now simpl.
Qed.

Lemma scoreFteEfficiency_fields (m : HealthMetrics) :
  cookbookRatio (scoreFteEfficiency m) = cookbookRatio m /\
  cookbooksPerFte (scoreFteEfficiency m) = cookbooksPerFte m /\
  debtMultiplier (scoreFteEfficiency m) = debtMultiplier m.
Proof.
  unfold scoreFteEfficiency.
  destruct (_ >? _); [now simpl|]. destruct (_ <? _); [|now simpl].
  destruct (healthScore m); now simpl.
Qed.

(** The metrics before the health score is determined. *)
Lemma calculateHealthMetrics_stages (data : OrganizationData) :
  exists m0 : HealthMetrics,
    healthScore m0 = healthy /\ issues m0 = [] /\
    calculateHealthMetrics data = scoreFteEfficiency (scoreCookbookRatio m0).
Proof.
  unfold calculateHealthMetrics.
  eexists. split; [|split; [|reflexivity]].
  - destruct (totalManagedNodes _ >? _), (totalFte data >? _); reflexivity.
  - destruct (totalManagedNodes _ >? _), (totalFte data >? _); reflexivity.
Qed.

(** C1: at a cookbook ratio of 200 per 1K nodes (above the critical bound 100
    of the claim) the score is only 'warning', and at 100 cookbooks per FTE
    (below the efficiency bound 150 of the claim) the score stays 'healthy':
    [calculateHealthMetrics] escalates to 'critical' above 500 and to
    'warning' for low efficiency below 50. *)
Theorem C1_health_score_thresholds :
  (let m := calculateHealthMetrics sprawlData in
   (cookbookRatio m >? Fin 100) = true /\ healthScore m = warning) /\
  (let m := calculateHealthMetrics lowEfficiencyData in
   (cookbooksPerFte m <? Fin 150) = true /\ healthScore m = healthy).
Proof. vm_compute. repeat split. Qed.

(** C10: when cookbooks-per-FTE exceeds 300 the understaffing issue is
    appended and the score is the one the cookbook ratio alone gives; and
    when cookbooks-per-FTE is below the low-efficiency bound (and not above
    300) the score is raised to 'warning' only from 'healthy': a 'warning' or
    'critical' set by the ratio is kept. *)
Theorem C10_understaffing_keeps_score (data : OrganizationData) :
  let m := calculateHealthMetrics data in
  ((cookbooksPerFte m >? Fin 300) = true ->
     healthScore m = ratioScore (cookbookRatio m) /\
     issues m = ratioIssues (cookbookRatio m) ++ [Understaffing (cookbooksPerFte m)]) /\
  ((cookbooksPerFte m >? Fin 300) = false ->
   (cookbooksPerFte m <? Fin 50) = true ->
     healthScore m =
       match ratioScore (cookbookRatio m) with
       | healthy => warning
       | s => s
       end /\
     issues m =
       ratioIssues (cookbookRatio m) ++ [LowFteEfficiency (cookbooksPerFte m)]) /\
  ((cookbooksPerFte m >? Fin 300) = false ->
   (cookbooksPerFte m <? Fin 50) = false ->
     healthScore m = ratioScore (cookbookRatio m) /\
     issues m = ratioIssues (cookbookRatio m)).
Proof.
  destruct (calculateHealthMetrics_stages data) as (m0 & Hs & Hi & ->).
  cbv zeta.
  destruct (scoreFteEfficiency_fields (scoreCookbookRatio m0)) as (-> & -> & _).
  destruct (scoreCookbookRatio_fields m0) as (Hr & Hf & _).
  pose proof (scoreCookbookRatio_score m0 Hs) as Hscore.
  pose proof (scoreCookbookRatio_issues m0) as Hissues.
  rewrite Hi in Hissues. simpl in Hissues.
  rewrite Hr in *. rewrite Hf in *.
  unfold scoreFteEfficiency.
  change BENCHMARKS.healthThresholds.cookbooksPerFte.critical with (Fin 50).
  rewrite Hf.
  split; [|split]; intros H1; [|intros H2|intros H2]; rewrite H1, ?H2; split.
  - simpl. exact Hscore.
  - simpl. now rewrite Hissues.
  - rewrite <- Hscore.
    destruct (healthScore (scoreCookbookRatio m0)) eqn:E; simpl; now rewrite ?E.
  - rewrite <- Hissues.
    destruct (healthScore (scoreCookbookRatio m0)); simpl; now rewrite ?Hf.
  - exact Hscore.
  - exact Hissues.
Qed.

Lemma C10_understaffing_keeps_score_witness :
  let m := calculateHealthMetrics understaffedData in
  healthScore m = warning /\
  issues m = [RatioExceedsHealthy (cookbookRatio m); Understaffing (cookbooksPerFte m)].
Proof.
  destruct (C10_understaffing_keeps_score understaffedData) as [H _].
  apply H. vm_compute. reflexivity.
Defined.

(** ** Debt multiplier *)

Lemma firstTier_first_match (tiers : list DebtTier) (ratio m : number) :
  firstTier tiers ratio = Some m <->
  exists pre t post,
    tiers = pre ++ t :: post /\
    Forall (fun u => (ratio <=? threshold u) = false) pre /\
    (ratio <=? threshold t) = true /\ m = multiplier t.
Proof.
  induction tiers as [|u tiers IH]; simpl.
  - split; [discriminate|]. intros (pre & t & post & H & _).
    destruct pre; discriminate H.
  - destruct (ratio <=? threshold u) eqn:E.
    + split.
      * intros [= <-]. exists [], u, tiers. repeat split; auto.
      * intros (pre & t & post & H & Hpre & Ht & ->).
        destruct pre as [|v pre]; simpl in H; injection H as <- ->.
        -- reflexivity.
        -- inversion Hpre; congruence.
    + rewrite IH. split.
      * intros (pre & t & post & -> & Hpre & Ht & ->).
        exists (u :: pre), t, post. repeat split; auto.
      * intros (pre & t & post & H & Hpre & Ht & ->).
        destruct pre as [|v pre]; simpl in H; injection H as <- ->.
        -- congruence.
        -- exists pre, t, post. inversion Hpre; repeat split; auto.
Qed.

Lemma debtMultipliers_ascending :
  StronglySorted (fun a b => (threshold a <? threshold b) = true)
    BENCHMARKS.debtMultipliers.
Proof.
  unfold BENCHMARKS.debtMultipliers.
  repeat first
    [ apply SSorted_nil | apply SSorted_cons
    | apply Forall_nil | apply Forall_cons | reflexivity ].
Qed.

(** C5: for a non-negative cookbook ratio the debt multiplier is the
    six-tier step function: 1.00 up to 25, 1.10 up to 50, 1.25 up to 100,
    1.50 up to 250, 2.00 up to 500 and 2.50 above; it is the multiplier of
    the first tier, in table order, whose upper bound the ratio does not
    exceed, and the table is in ascending order of upper bound. *)
Theorem C5_debt_multiplier_tiers (ratio : number) :
  (Fin 0 <=? ratio) = true ->
  ((ratio <=? Fin 25) = true -> getDebtMultiplier ratio = Fin 1.0) /\
  ((Fin 25 <? ratio) = true -> (ratio <=? Fin 50) = true ->
     getDebtMultiplier ratio = Fin 1.1) /\
  ((Fin 50 <? ratio) = true -> (ratio <=? Fin 100) = true ->
     getDebtMultiplier ratio = Fin 1.25) /\
  ((Fin 100 <? ratio) = true -> (ratio <=? Fin 250) = true ->
     getDebtMultiplier ratio = Fin 1.5) /\
  ((Fin 250 <? ratio) = true -> (ratio <=? Fin 500) = true ->
     getDebtMultiplier ratio = Fin 2.0) /\
  ((Fin 500 <? ratio) = true -> getDebtMultiplier ratio = Fin 2.5) /\
  (exists pre t post,
     BENCHMARKS.debtMultipliers = pre ++ t :: post /\
     Forall (fun u => (ratio <=? threshold u) = false) pre /\
     (ratio <=? threshold t) = true /\
     getDebtMultiplier ratio = multiplier t) /\
  StronglySorted (fun a b => (threshold a <? threshold b) = true)
    BENCHMARKS.debtMultipliers.
Proof.
  intros Hnn.
  assert (Hscan :
    getDebtMultiplier ratio =
      if ratio <=? Fin 25 then Fin 1.0
      else if ratio <=? Fin 50 then Fin 1.1
      else if ratio <=? Fin 100 then Fin 1.25
      else if ratio <=? Fin 250 then Fin 1.5
      else if ratio <=? Fin 500 then Fin 2.0
      else Fin 2.5).
  { unfold getDebtMultiplier, BENCHMARKS.debtMultipliers. simpl.
    repeat (destruct (ratio <=? _); [reflexivity|]).
    destruct ratio; try discriminate Hnn; reflexivity. }
  assert (Hlo : forall a b : Q, (b <= a)%Q ->
            (Fin a <? ratio) = true -> (ratio <=? Fin b) = false).
  { intros a b Hab H. destruct ratio as [q| | |]; try discriminate H.
    - simpl in *. apply Qltb_lt in H.
      destruct (Qle_bool q b) eqn:E; [|reflexivity].
      apply Qle_bool_iff in E. lra.
    - reflexivity. }
  repeat split.
  - intros H. now rewrite Hscan, H.
  - intros H1 H2. rewrite Hscan, (Hlo 25 25), H2; [reflexivity|lra|exact H1].
  - intros H1 H2.
    rewrite Hscan, (Hlo 50 25), (Hlo 50 50), H2; [reflexivity|lra|exact H1|lra|exact H1].
  - intros H1 H2.
    rewrite Hscan, (Hlo 100 25), (Hlo 100 50), (Hlo 100 100), H2;
      solve [reflexivity | lra | exact H1].
  - intros H1 H2.
    rewrite Hscan, (Hlo 250 25), (Hlo 250 50), (Hlo 250 100), (Hlo 250 250), H2;
      solve [reflexivity | lra | exact H1].
  - intros H1.
    rewrite Hscan, (Hlo 500 25), (Hlo 500 50), (Hlo 500 100), (Hlo 500 250),
      (Hlo 500 500); solve [reflexivity | lra | exact H1].
  - unfold getDebtMultiplier.
    destruct (firstTier BENCHMARKS.debtMultipliers ratio) as [m|] eqn:E.
    + apply firstTier_first_match in E.
      destruct E as (pre & t & post & H1 & H2 & H3 & ->).
      now exists pre, t, post.
    + exfalso. unfold BENCHMARKS.debtMultipliers in E.
      destruct ratio as [q| | |]; try discriminate Hnn; simpl in E;
        repeat (destruct (Qle_bool _ _); [discriminate E|]); discriminate E.
  - exact debtMultipliers_ascending.
Qed.

Lemma C5_debt_multiplier_tiers_witness :
  getDebtMultiplier (Fin 60) = Fin 1.25.
Proof.
  destruct (C5_debt_multiplier_tiers (Fin 60) eq_refl) as (_ & _ & H & _).
  apply H; reflexivity.
Defined.

(** ** Reference snapshot *)

(** C3, as stated, fails: on the reference snapshot the total annual TCO is
    not in the high-$20M to low-$30M range (it is not even below $35M) and
    the cost per node is not near $147. *)
Lemma C3_reference_snapshot_counterexample :
  let r := generateAnalysisReport sampleData in
  ~ (equals (cookbookRatio (healthMetrics r)) 60 /\
     equals (debtMultiplier (healthMetrics r)) 1.25 /\
     (25000000 <= val (totalAnnualTco (costBreakdown r)) < 35000000)%Q /\
     (140 <= val (perNode (perUnitCosts r)) <= 155)%Q).
Proof.
  cbv zeta. intros (_ & _ & [_ H] & _). vm_compute in H. discriminate H.
Qed.

(** C3, amended: on the reference snapshot the cookbook ratio is 60 per 1K
    nodes, the debt multiplier 1.25, the total annual TCO 1835356825/52
    (about $35.3M) and the cost per node about $176.48. *)
Theorem C3_reference_snapshot :
  let r := generateAnalysisReport sampleData in
  equals (cookbookRatio (healthMetrics r)) 60 /\
  equals (debtMultiplier (healthMetrics r)) 1.25 /\
  equals (totalAnnualTco (costBreakdown r)) (1835356825 # 52) /\
  (35295323 < val (totalAnnualTco (costBreakdown r)) < 35295324)%Q /\
  equals (perNode (perUnitCosts r)) (1835356825 # 10400000) /\
  (176.47 < val (perNode (perUnitCosts r)) < 176.48)%Q.
Proof. vm_compute. repeat split. Qed.

(** ** Division guards *)

(** C2: on the all-zero snapshot the guarded divisions give 0 (cookbook
    ratio, cookbooks per FTE, per-unit costs, no break-even), but the savings
    percentage of every scenario is [NaN]: [calculateScenario] divides by
    [currentTco * 3] without a guard. *)
Theorem C2_zero_snapshot_savings_percent :
  let r := generateAnalysisReport zeroData in
  finite_data zeroData = true /\
  equals (cookbookRatio (healthMetrics r)) 0 /\
  equals (cookbooksPerFte (healthMetrics r)) 0 /\
  equals (totalAnnualTco (costBreakdown r)) 0 /\
  equals (perNode (perUnitCosts r)) 0 /\
  equals (perCookbook (perUnitCosts r)) 0 /\
  equals (perFte (perUnitCosts r)) 0 /\
  map platform (scenarios r) = [ansible; kubernetes; terraform; puppet] /\
  map breakEvenMonths (scenarios r) = [None; None; None; None] /\
  map savingsPercent (scenarios r) = [NaN; NaN; NaN; NaN].
Proof. vm_compute. repeat split. Qed.

(** ** Sorting *)

Section ArraySortFacts.
Context {A : Type} (key : A -> number).

Let comparefn (a b : A) : number := key b - key a.
Let before (a b : A) : Prop := (key a >=? key b) = true.
Let numeric (a : A) : Prop := is_finite (key a) = true.

Lemma comparefn_neg (x y : A) :
  numeric x -> numeric y ->
  (comparefn x y <? Fin 0) = true -> before x y.
Proof.
  unfold numeric, comparefn, before. destruct (key x), (key y); try discriminate.
  intros _ _ H. simpl in *. apply Qltb_lt in H. apply Qle_bool_iff. lra.
Qed.

Lemma comparefn_nonneg (x y : A) :
  numeric x -> numeric y ->
  (comparefn x y <? Fin 0) = false -> before y x.
Proof.
  unfold numeric, comparefn, before. destruct (key x), (key y); try discriminate.
  intros _ _ H. simpl in *. apply Qltb_ge in H. apply Qle_bool_iff. lra.
Qed.

Lemma sort_insert_numeric (x : A) (l : list A) :
  numeric x -> Forall numeric l -> Forall numeric (sort_insert comparefn x l).
Proof.
  intros Hx Hl. induction Hl as [|y l Hy Hl IH]; simpl.
  - constructor; [exact Hx|constructor].
  - destruct (comparefn x y <? Fin 0); repeat constructor; assumption.
Qed.

Lemma sort_insert_HdRel (a x : A) (l : list A) :
  before a x -> HdRel before a l -> HdRel before a (sort_insert comparefn x l).
Proof.
  intros Hax Hal. destruct l as [|y l]; simpl.
  - constructor. exact Hax.
  - destruct (comparefn x y <? Fin 0); constructor.
    + exact Hax.
    + inversion Hal; assumption.
Qed.

Lemma sort_insert_sorted (x : A) (l : list A) :
  numeric x -> Forall numeric l ->
  Sorted before l -> Sorted before (sort_insert comparefn x l).
Proof.
  intros Hx Hl Hs. induction Hs as [|y l Hs IH Hy]; simpl.
  - repeat constructor.
  - inversion Hl as [|? ? Hny Hnl]; subst.
    destruct (comparefn x y <? Fin 0) eqn:E.
    + constructor; [constructor; assumption|].
      constructor. now apply comparefn_neg.
    + constructor; [now apply IH|].
      apply sort_insert_HdRel; [|exact Hy]. now apply comparefn_nonneg.
Qed.

Lemma sort_insert_perm (x : A) (l : list A) :
  Permutation (sort_insert comparefn x l) (x :: l).
Proof.
  induction l as [|y l IH]; simpl; [reflexivity|].
  destruct (comparefn x y <? Fin 0); [reflexivity|].
  rewrite IH. apply perm_swap.
Qed.

Lemma fold_insert_sorted (l acc : list A) :
  Forall numeric l -> Forall numeric acc -> Sorted before acc ->
  Sorted before
    (fold_left (fun sorted x => sort_insert comparefn x sorted) l acc).
Proof.
  revert acc. induction l as [|x l IH]; intros acc Hl Hacc Hs; simpl.
  - exact Hs.
  - inversion Hl; subst. apply IH; [assumption| |].
    + now apply sort_insert_numeric.
    + now apply sort_insert_sorted.
Qed.

Lemma fold_insert_perm (l acc : list A) :
  Permutation
    (fold_left (fun sorted x => sort_insert comparefn x sorted) l acc)
    (acc ++ l).
Proof.
  revert acc. induction l as [|x l IH]; intros acc; simpl.
  - now rewrite app_nil_r.
  - rewrite IH, sort_insert_perm. apply Permutation_middle.
Qed.

Lemma Array_sort_sorted (l : list A) :
  Forall (fun a => is_finite (key a) = true) l ->
  Sorted (fun a b => (key a >=? key b) = true)
    (Array_sort (fun a b => key b - key a) l).
Proof.
  intros Hl. apply (fold_insert_sorted l []); [exact Hl|constructor|constructor].
Qed.

Lemma Array_sort_perm (l : list A) :
  Permutation (Array_sort (fun a b => key b - key a) l) l.
Proof. apply (fold_insert_perm l []). Qed.
End ArraySortFacts.

(** ** Numeric snapshots give numeric results *)

Local Opaque Qplus Qmult Qopp Qminus Qdiv Qinv Qeq_bool Qle_bool Qltb Qpower.

Ltac fin_fields H :=
  simpl in H;
  repeat match type of H with
  | (is_finite ?x && _)%bool = true =>
      destruct x; simpl in H; [ | discriminate H ..]
  end.

Ltac fin_data data H :=
  destruct data as [[] [] [] [] []]; unfold finite_data in H; fin_fields H.

Ltac fin_tco tco H :=
  destruct tco; unfold finite_tco in H; fin_fields H.

(** A division by a non-zero literal. *)
Ltac const_div :=
  repeat match goal with
  | |- context [Qeq_bool ?c 0] => change (Qeq_bool c 0) with false; cbv iota
  end.

Ltac engine_eval :=
  unfold BENCHMARKS.migration.tier1Hours, BENCHMARKS.migration.tier2Hours,
    BENCHMARKS.migration.tier3Hours, BENCHMARKS.migration.learningCurvePenalty;
  repeat (progress (cbn; const_div)).

Lemma Qeq_bool_pos (q : Q) : (0 < q)%Q -> Qeq_bool q 0 = false.
Proof.
  intros H. destruct (Qeq_bool q 0) eqn:E; [|reflexivity].
  apply Qeq_bool_iff in E. lra.
Qed.

Lemma div_Fin_pos (p q : Q) : (0 < q)%Q -> Fin p / Fin q = Fin (p / q).
Proof. intros H. simpl. now rewrite Qeq_bool_pos. Qed.

Lemma max_one (x : number) :
  is_finite x = true ->
  exists d : Q, max (Fin 1) x = Fin d /\ (d == Qmax 1 (val x))%Q /\ (0 < d)%Q.
Proof.
  destruct x as [q| | |]; try discriminate. intros _. simpl.
  destruct (Qltb 1 q) eqn:E.
  - apply Qltb_lt in E. exists q. split; [reflexivity|]. split; [|lra].
    symmetry. apply Q.max_r. lra.
  - apply Qltb_ge in E. exists 1%Q. split; [reflexivity|]. split; [|lra].
    symmetry. apply Q.max_l. exact E.
Qed.

Lemma getDebtMultiplier_finite (ratio : number) :
  is_finite (getDebtMultiplier ratio) = true.
Proof.
  unfold getDebtMultiplier, BENCHMARKS.debtMultipliers. simpl.
  repeat (destruct (ratio <=? _); [reflexivity|]). reflexivity.
Qed.

Lemma calculateHealthMetrics_debtMultiplier (data : OrganizationData) :
  let m := calculateHealthMetrics data in
  debtMultiplier m = getDebtMultiplier (cookbookRatio m).
Proof.
  cbv zeta. unfold calculateHealthMetrics.
  set (m2 := set_debtMultiplier _ _).
  destruct (scoreFteEfficiency_fields (scoreCookbookRatio m2)) as (-> & _ & ->).
  destruct (scoreCookbookRatio_fields m2) as (-> & _ & ->).
  reflexivity.
Qed.

Lemma calculateTCO_finite (data : OrganizationData) (hm : HealthMetrics) :
  finite_data data = true -> is_finite (debtMultiplier hm) = true ->
  finite_tco (calculateTCO data hm) = true.
Proof.
  intros Hd Hm. fin_data data Hd. destruct hm as [? ? [dm| | |] ? ?];
    try discriminate Hm.
  unfold calculateTCO, finite_tco. engine_eval. reflexivity.
Qed.

Lemma report_costBreakdown_finite (data : OrganizationData) :
  finite_data data = true ->
  finite_tco (calculateTCO data (calculateHealthMetrics data)) = true.
Proof.
  intros Hd. apply calculateTCO_finite; [exact Hd|].
  rewrite calculateHealthMetrics_debtMultiplier. apply getDebtMultiplier_finite.
Qed.

Lemma finite_tco_total (tco : TCOBreakdown) :
  finite_tco tco = true -> is_finite (totalAnnualTco tco) = true.
Proof. intros Ht. fin_tco tco Ht. reflexivity. Qed.

Lemma scenario_finite
    (data : OrganizationData) (tco : TCOBreakdown) (platform : Platform) :
  finite_data data = true -> finite_tco tco = true ->
  let s := calculateScenario data tco platform None in
  is_finite (migrationCost s) = true /\
  is_finite (year1Cost s) = true /\
  is_finite (year2Cost s) = true /\
  is_finite (year3Cost s) = true /\
  is_finite (threeYearTotal s) = true /\
  is_finite (annualSavings s) = true /\
  is_finite (npv3Year s) = true.
Proof.
  intros Hd Ht. fin_data data Hd. fin_tco tco Ht.
  unfold calculateScenario, calculateMigrationCost.
  destruct platform; engine_eval; repeat split.
Qed.

Lemma breakEvenMonths_eq
    (data : OrganizationData) (tco : TCOBreakdown) (platform : Platform)
    (r : option number) :
  let s := calculateScenario data tco platform r in
  annualSavings s = totalAnnualTco tco - year3Cost s /\
  breakEvenMonths s =
    if annualSavings s >? Fin 0
    then Some (migrationCost s / annualSavings s * Fin 12)
    else None.
Proof. split; reflexivity. Qed.

Lemma savingsPercent_eq
    (data : OrganizationData) (tco : TCOBreakdown) (platform : Platform)
    (r : option number) :
  let s := calculateScenario data tco platform r in
  savingsPercent s =
    (totalAnnualTco tco * Fin 3 - threeYearTotal s) /
    (totalAnnualTco tco * Fin 3) * Fin 100.
Proof. reflexivity. Qed.

(** The savings percentage is a division artifact whenever the current TCO
    is zero. *)
Lemma savingsPercent_unguarded
    (data : OrganizationData) (tco : TCOBreakdown) (platform : Platform) :
  finite_data data = true -> finite_tco tco = true ->
  equals (totalAnnualTco tco) 0 ->
  is_finite (savingsPercent (calculateScenario data tco platform None)) = false.
Proof.
  intros Hd Ht Hz.
  destruct (scenario_finite data tco platform Hd Ht) as (_ & _ & _ & _ & H3 & _).
  rewrite savingsPercent_eq.
  destruct (threeYearTotal _) as [t| | |]; try discriminate H3.
  destruct (totalAnnualTco tco) as [c| | |]; try contradiction.
  simpl in Hz. cbn.
  assert (E : Qeq_bool (c * 3) 0 = true) by (apply Qeq_bool_iff; lra).
  rewrite E. unfold signed_inf.
  destruct (Qltb 0 _); [reflexivity|]. destruct (Qltb _ 0); reflexivity.
Qed.

(** ** Cost breakdown *)

(** C4: the total annual TCO returned by [calculateTCO] is the sum of the
    nine cost components of the same result, and of nothing else; for a
    numeric snapshot and debt multiplier it is their sum as rationals. *)
Theorem C4_total_is_sum_of_components
    (data : OrganizationData) (healthMetrics : HealthMetrics) :
  let t := calculateTCO data healthMetrics in
  totalAnnualTco t =
    licensingCost t + infrastructureCost t + platformLaborCost t +
    distributedLaborCost t + incidentCost t + technicalDebtTax t +
    trainingCost t + contractorCost t + opportunityCost t /\
  (finite_data data = true -> is_finite (debtMultiplier healthMetrics) = true ->
   is_finite (totalAnnualTco t) = true /\
   (val (totalAnnualTco t) ==
      val (licensingCost t) + val (infrastructureCost t) +
      val (platformLaborCost t) + val (distributedLaborCost t) +
      val (incidentCost t) + val (technicalDebtTax t) +
      val (trainingCost t) + val (contractorCost t) +
      val (opportunityCost t))%Q).
Proof.
  cbv zeta. split; [reflexivity|]. intros Hd Hm.
  pose proof (calculateTCO_finite data healthMetrics Hd Hm) as Ht.
  assert (Hsum :
    let t := calculateTCO data healthMetrics in
    totalAnnualTco t =
      licensingCost t + infrastructureCost t + platformLaborCost t +
      distributedLaborCost t + incidentCost t + technicalDebtTax t +
      trainingCost t + contractorCost t + opportunityCost t) by reflexivity.
  cbv zeta in Hsum. revert Hsum.
  generalize dependent (calculateTCO data healthMetrics).
  intros t Ht Hsum. fin_tco t Ht. cbn in *.
  injection Hsum as ->. split; reflexivity.
Qed.

Lemma C4_total_is_sum_of_components_witness :
  let t := calculateTCO sampleData (calculateHealthMetrics sampleData) in
  (val (totalAnnualTco t) ==
     val (licensingCost t) + val (infrastructureCost t) +
     val (platformLaborCost t) + val (distributedLaborCost t) +
     val (incidentCost t) + val (technicalDebtTax t) +
     val (trainingCost t) + val (contractorCost t) +
     val (opportunityCost t))%Q.
Proof.
  exact (proj2 (proj2 (C4_total_is_sum_of_components sampleData
                         (calculateHealthMetrics sampleData)) eq_refl eq_refl)).
Defined.

(** The two ratios of [calculateHealthMetrics] are guarded: they are finite
    for a numeric snapshot, and 0 when the denominator is not positive. *)
Lemma health_ratios_guarded (data : OrganizationData) :
  finite_data data = true ->
  let m := calculateHealthMetrics data in
  is_finite (cookbookRatio m) = true /\
  is_finite (cookbooksPerFte m) = true /\
  ((totalManagedNodes (infrastructure data) >? Fin 0) = false ->
   cookbookRatio m = Fin 0) /\
  ((totalFte data >? Fin 0) = false -> cookbooksPerFte m = Fin 0).
Proof.
  intros Hd. cbv zeta. unfold calculateHealthMetrics.
  set (m3 := set_debtMultiplier _ _).
  destruct (scoreFteEfficiency_fields (scoreCookbookRatio m3)) as (-> & -> & _).
  destruct (scoreCookbookRatio_fields m3) as (-> & -> & _).
  subst m3. fin_data data Hd. unfold totalFte. engine_eval.
  match goal with |- context [Qltb 0 ?f] =>
    match f with
    | (_ + _)%Q => destruct (Qltb 0 f) eqn:Ef
    end
  end;
  match goal with |- context [if Qltb 0 ?n then _ else _] =>
    destruct (Qltb 0 n) eqn:En
  end; cbn.
  all: try (apply Qltb_lt in En); try (apply Qltb_lt in Ef).
  all: rewrite ?(Qeq_bool_pos _ En), ?(Qeq_bool_pos _ Ef).
  all: repeat split; try reflexivity; discriminate.
Qed.

(** ** Scenarios *)

(** C6, as stated, fails in each of its parts.  With a licence bill as the
    only cost, the year-3 cost of the Ansible scenario (0) is below the
    current TCO (100), yet the break-even is not positive: it is 0 months,
    the migration being free.  With an unbounded migration cost on the
    reference snapshot the year-3 cost of the Terraform scenario is below the
    current TCO, yet the break-even is not finite: it is [Infinity].  And
    with a cost that is [NaN] the break-even is null although the year-3 cost
    is not greater than or equal to the current TCO. *)
Lemma C6_break_even_counterexample :
  (let tco := calculateTCO licenseOnlyData (calculateHealthMetrics licenseOnlyData) in
   let s := calculateScenario licenseOnlyData tco ansible None in
   (year3Cost s >=? totalAnnualTco tco) = false /\
   ~ (exists b : number, breakEvenMonths s = Some b /\ (b >? Fin 0) = true)) /\
  (let tco :=
     calculateTCO unboundedMigrationData
       (calculateHealthMetrics unboundedMigrationData) in
   let s := calculateScenario unboundedMigrationData tco terraform None in
   (year3Cost s >=? totalAnnualTco tco) = false /\
   breakEvenMonths s = Some PInf) /\
  (let tco :=
     calculateTCO unboundedSalaryData (calculateHealthMetrics unboundedSalaryData) in
   let s := calculateScenario unboundedSalaryData tco ansible None in
   breakEvenMonths s = None /\
   (year3Cost s >=? totalAnnualTco tco) = false).
Proof.
  split; [|split].
  - split; [reflexivity|].
    intros (b & Hb & Hpos). vm_compute in Hb. injection Hb as <-.
    vm_compute in Hpos. discriminate Hpos.
  - split; reflexivity.
  - split; reflexivity.
Qed.

(** C6, amended: for every snapshot, cost breakdown and platform,
    [breakEvenMonths] is null exactly when the annual savings (current total
    annual TCO - year-3 cost) are not greater than 0: whenever the year-3
    cost is greater than or equal to the current total annual TCO, and,
    unless the savings are [NaN], only then.  Otherwise it is
    (migration cost / (current annual TCO - year-3 cost)) * 12, which is 0,
    not positive, when the migration cost is 0. *)
Theorem C6_break_even
    (data : OrganizationData) (tco : TCOBreakdown) (platform : Platform) :
  let s := calculateScenario data tco platform None in
  let savings := totalAnnualTco tco - year3Cost s in
  breakEvenMonths s =
    (if savings >? Fin 0
     then Some (migrationCost s / savings * Fin 12)
     else None) /\
  (breakEvenMonths s = None <-> (savings >? Fin 0) = false) /\
  ((year3Cost s >=? totalAnnualTco tco) = true -> breakEvenMonths s = None) /\
  (breakEvenMonths s = None -> savings <> NaN ->
   (year3Cost s >=? totalAnnualTco tco) = true) /\
  ((savings >? Fin 0) = true -> equals (migrationCost s) 0 ->
   exists b : number, breakEvenMonths s = Some b /\ equals b 0).
Proof.
  cbv zeta.
  destruct (breakEvenMonths_eq data tco platform None) as [Ha Hb].
  rewrite Hb, Ha. clear Ha Hb.
  generalize (migrationCost (calculateScenario data tco platform None)).
  generalize (year3Cost (calculateScenario data tco platform None)).
  generalize (totalAnnualTco tco). intros c y m.
  split; [reflexivity|].
  destruct (c - y >? Fin 0) eqn:E.
  - split; [split; discriminate|]. split.
    + intros H. exfalso. destruct c, y; simpl in *; try discriminate.
      apply Qltb_lt in E. apply Qle_bool_iff in H. lra.
    + split; [discriminate|]. intros _ Hm. eexists. split; [reflexivity|].
      destruct m as [m| | |]; try contradiction. simpl in Hm.
      destruct c as [c| | |], y as [y| | |]; simpl in E; try discriminate.
      all: try (cbn; lra).
      apply Qltb_lt in E. cbn. rewrite (Qeq_bool_pos _ E). simpl.
      rewrite Hm. field. lra.
  - split; [split; reflexivity|]. split; [reflexivity|]. split.
    + intros _ Hn. destruct c, y; simpl in *; try reflexivity; try discriminate;
        try (exfalso; apply Hn; reflexivity).
      apply Qltb_ge in E. apply Qle_bool_iff. lra.
    + discriminate.
Qed.

Lemma C6_break_even_witness :
  let tco := calculateTCO licenseOnlyData (calculateHealthMetrics licenseOnlyData) in
  let s := calculateScenario licenseOnlyData tco ansible None in
  exists b : number, breakEvenMonths s = Some b /\ equals b 0.
Proof.
  apply (proj2 (proj2 (proj2 (proj2 (C6_break_even licenseOnlyData
           (calculateTCO licenseOnlyData (calculateHealthMetrics licenseOnlyData))
           ansible))))).
  - reflexivity.
  - vm_compute. reflexivity.
Defined.

(** C7: the 3-year NPV is the sum over the years i = 1..3 of (current total
    annual TCO - year-i cost) divided by 1.10 to the power i, and nothing
    else: no migration cost is subtracted separately.  For a numeric snapshot
    and cost breakdown all these are finite numbers, and the migration cost
    enters through the year-1 cost only (years 2 and 3 are computed without
    it). *)
Theorem C7_npv_discounted_savings
    (data : OrganizationData) (tco : TCOBreakdown) (platform : Platform) :
  let s := calculateScenario data tco platform None in
  let c := val (totalAnnualTco tco) in
  let m := val (migrationCost s) in
  let newLicense :=
    (val (totalManagedNodes (infrastructure data)) *
     val (perNodeCost (BENCHMARKS.alternatives platform)))%Q in
  let labor := val (laborCosts tco) in
  let infra := val (infrastructureCost tco) in
  npv3Year s =
    (totalAnnualTco tco - year1Cost s) / pow (Fin 1.1) 1 +
    (totalAnnualTco tco - year2Cost s) / pow (Fin 1.1) 2 +
    (totalAnnualTco tco - year3Cost s) / pow (Fin 1.1) 3 /\
  (finite_data data = true -> finite_tco tco = true ->
   (is_finite (npv3Year s) = true /\
    val (npv3Year s) ==
      (c - val (year1Cost s)) / 1.1 ^ 1 +
      (c - val (year2Cost s)) / 1.1 ^ 2 +
      (c - val (year3Cost s)) / 1.1 ^ 3)%Q /\
   (val (year1Cost s) ==
      m + newLicense * 0.5 + val (licensingCost tco) * 0.5 + labor * 1.2 +
      infra * 0.7 /\
    val (year2Cost s) ==
      newLicense + labor * 0.7 * 1.1 + infra * 0.7 + val (trainingCost tco) * 0.5 /\
    val (year3Cost s) == newLicense + labor * 0.7 + infra * 0.7 * 0.9)%Q).
Proof.
  cbv zeta. split; [reflexivity|].
  intros Hd Ht. fin_data data Hd. fin_tco tco Ht.
  unfold calculateScenario, calculateMigrationCost.
  destruct platform; engine_eval; repeat split; field.
Qed.

Lemma C7_npv_discounted_savings_witness :
  let tco := calculateTCO sampleData (calculateHealthMetrics sampleData) in
  let s := calculateScenario sampleData tco terraform None in
  let c := val (totalAnnualTco tco) in
  (val (npv3Year s) ==
     (c - val (year1Cost s)) / 1.1 ^ 1 +
     (c - val (year2Cost s)) / 1.1 ^ 2 +
     (c - val (year3Cost s)) / 1.1 ^ 3)%Q.
Proof.
  exact (proj2 (proj1 (proj2 (C7_npv_discounted_savings sampleData
                  (calculateTCO sampleData (calculateHealthMetrics sampleData))
                  terraform) eq_refl eq_refl))).
Defined.

(** ** Report *)

Lemma report_scenarios (data : OrganizationData) :
  scenarios (generateAnalysisReport data) =
    Array_sort (fun a b => npv3Year b - npv3Year a)
      (map (fun platform =>
              calculateScenario data
                (calculateTCO data (calculateHealthMetrics data)) platform None)
           BENCHMARKS.alternatives_keys).
Proof. reflexivity. Qed.

Lemma report_scenarios_perm (data : OrganizationData) :
  Permutation (scenarios (generateAnalysisReport data))
    (map (fun platform =>
            calculateScenario data
              (calculateTCO data (calculateHealthMetrics data)) platform None)
         BENCHMARKS.alternatives_keys).
Proof. rewrite report_scenarios. apply (Array_sort_perm npv3Year). Qed.

Lemma report_scenarios_in (data : OrganizationData) (s : ScenarioResult) :
  In s (scenarios (generateAnalysisReport data)) <->
  exists p : Platform,
    s = calculateScenario data
          (calculateTCO data (calculateHealthMetrics data)) p None.
Proof.
  split.
  - intros H. apply (Permutation_in _ (report_scenarios_perm data)) in H.
    apply in_map_iff in H. destruct H as (q & Hq & _). exists q. now symmetry.
  - intros (p & ->).
    apply (Permutation_in _ (Permutation_sym (report_scenarios_perm data))).
    apply (in_map (fun platform =>
                     calculateScenario data
                       (calculateTCO data (calculateHealthMetrics data))
                       platform None)).
    destruct p; simpl; auto.
Qed.

(** C8, as stated, fails: with an unbounded salary for a team of nobody the
    labor cost, and with it the 3-year NPV of each of the four scenarios, is
    [NaN]; as no [NaN] is greater than or equal to another, the scenarios are
    not in non-increasing order of NPV, whatever order the sort leaves them
    in. *)
Lemma C8_scenarios_sorted_by_npv_counterexample :
  let l := scenarios (generateAnalysisReport unboundedSalaryData) in
  Forall (fun s => npv3Year s = NaN) l /\
  ~ Sorted (fun a b => npv_geb a b = true) l.
Proof.
  cbv zeta. split.
  - rewrite Forall_forall. intros s Hs.
    apply report_scenarios_in in Hs. destruct Hs as (p & ->).
    destruct p; reflexivity.
  - intros H.
    destruct (scenarios (generateAnalysisReport unboundedSalaryData))
      as [|a [|b l]] eqn:E; try discriminate E.
    assert (Ha : In a (scenarios (generateAnalysisReport unboundedSalaryData)))
      by (rewrite E; now left).
    apply report_scenarios_in in Ha. destruct Ha as (p & ->).
    apply Sorted_inv in H. destruct H as [_ H].
    apply HdRel_inv in H. unfold npv_geb in H.
    destruct p; destruct (npv3Year b); discriminate H.
Qed.

(** C8, amended: the scenarios of the report are the scenarios of the four
    platforms, and whenever their 3-year NPVs are finite numbers they are in
    non-increasing order of NPV (each element's NPV is greater than or equal
    to the next one's). *)
Theorem C8_scenarios_sorted_by_npv (data : OrganizationData) :
  let l := scenarios (generateAnalysisReport data) in
  Permutation (map platform l) [ansible; kubernetes; terraform; puppet] /\
  (Forall (fun s => is_finite (npv3Year s) = true) l ->
   Sorted (fun a b => npv_geb a b = true) l).
Proof.
  cbv zeta. rewrite report_scenarios. split.
  - rewrite (Array_sort_perm npv3Year). reflexivity.
  - intros Hfin. apply (Array_sort_sorted npv3Year).
    eapply Permutation_Forall; [|exact Hfin].
    apply (Array_sort_perm npv3Year).
Qed.

Lemma C8_scenarios_sorted_by_npv_witness :
  Sorted (fun a b => npv_geb a b = true)
    (scenarios (generateAnalysisReport sampleData)).
Proof.
  apply (proj2 (C8_scenarios_sorted_by_npv sampleData)).
  vm_compute. repeat constructor.
Defined.

(** C9, as stated, fails: on the reference snapshot (45 dedicated engineers,
    69 FTE in total) the per-FTE cost is not the total annual TCO divided by
    the total FTE count. *)
Lemma C9_per_unit_costs_counterexample :
  let r := generateAnalysisReport sampleData in
  equals (totalFte sampleData) 69 /\
  ~ equals (perFte (perUnitCosts r))
      (val (totalAnnualTco (costBreakdown r)) / Qmax 1 (val (totalFte sampleData))).
Proof.
  split; [reflexivity|]. intros H. vm_compute in H. discriminate H.
Qed.

(** C9, amended: the per-unit costs of the report are the total annual TCO
    divided by the total node count, by the active cookbook count and by the
    number of dedicated engineers (part-time contributors are not counted),
    each denominator clamped to a minimum of 1; for a numeric snapshot they
    are finite numbers. *)
Theorem C9_per_unit_costs (data : OrganizationData) :
  let r := generateAnalysisReport data in
  let T := val (totalAnnualTco (costBreakdown r)) in
  (perNode (perUnitCosts r) =
     totalAnnualTco (costBreakdown r) /
     max (Fin 1) (totalManagedNodes (infrastructure data)) /\
   perCookbook (perUnitCosts r) =
     totalAnnualTco (costBreakdown r) /
     max (Fin 1) (activeCookbooks (cookbooks data)) /\
   perFte (perUnitCosts r) =
     totalAnnualTco (costBreakdown r) /
     max (Fin 1) (dedicatedEngineers (team data))) /\
  (finite_data data = true ->
   is_finite (totalAnnualTco (costBreakdown r)) = true /\
   equals (perNode (perUnitCosts r))
     (T / Qmax 1 (val (totalManagedNodes (infrastructure data)))) /\
   equals (perCookbook (perUnitCosts r))
     (T / Qmax 1 (val (activeCookbooks (cookbooks data)))) /\
   equals (perFte (perUnitCosts r))
     (T / Qmax 1 (val (dedicatedEngineers (team data))))).
Proof.
  cbv zeta. split; [repeat split|]. intros Hd.
  change (costBreakdown (generateAnalysisReport data))
    with (calculateTCO data (calculateHealthMetrics data)).
  pose proof (finite_tco_total _ (report_costBreakdown_finite data Hd)) as HT.
  assert (Hdiv : forall x : number, is_finite x = true ->
            equals (totalAnnualTco (calculateTCO data (calculateHealthMetrics data))
                    / max (Fin 1) x)
              (val (totalAnnualTco (calculateTCO data (calculateHealthMetrics data)))
               / Qmax 1 (val x))).
  { intros x Hx. destruct (max_one x Hx) as (d & -> & Hdq & Hpos).
    destruct (totalAnnualTco _) as [t| | |]; try discriminate HT.
    rewrite div_Fin_pos by exact Hpos. simpl. now rewrite Hdq. }
  split; [exact HT|].
  assert (Hfields :
    is_finite (totalManagedNodes (infrastructure data)) = true /\
    is_finite (activeCookbooks (cookbooks data)) = true /\
    is_finite (dedicatedEngineers (team data)) = true).
  { clear Hdiv HT. fin_data data Hd. repeat split. }
  destruct Hfields as (Hn & Hc & He).
  split; [|split].
  - apply (Hdiv _ Hn).
  - apply (Hdiv _ Hc).
  - apply (Hdiv _ He).
Qed.

Lemma C9_per_unit_costs_witness :
  let r := generateAnalysisReport sampleData in
  equals (perFte (perUnitCosts r))
    (val (totalAnnualTco (costBreakdown r)) / Qmax 1 45).
Proof.
  exact (proj2 (proj2 (proj2 (proj2 (C9_per_unit_costs sampleData) eq_refl)))).
Defined.

(** * Further properties of the engine *)

(** ** Debt multiplier *)

Lemma getDebtMultiplier_scan (ratio : number) :
  getDebtMultiplier ratio =
    if ratio <=? Fin 25 then Fin 1.0
    else if ratio <=? Fin 50 then Fin 1.1
    else if ratio <=? Fin 100 then Fin 1.25
    else if ratio <=? Fin 250 then Fin 1.5
    else if ratio <=? Fin 500 then Fin 2.0
    else Fin 2.5.
Proof.
  unfold getDebtMultiplier, BENCHMARKS.debtMultipliers. simpl.
  repeat (destruct (ratio <=? _); [reflexivity|]).
  destruct (ratio <=? PInf); reflexivity.
Qed.

Lemma Qle_bool_false (a b : Q) : Qle_bool a b = false -> (b < a)%Q.
Proof.
  intros H. apply Qltb_lt. change (negb (Qle_bool a b) = true). now rewrite H.
Qed.

(** Turns the boolean comparisons of the context into order facts. *)
Ltac order_facts :=
  repeat match goal with
  | H : Qle_bool _ _ = true |- _ => apply Qle_bool_iff in H
  | H : Qle_bool _ _ = false |- _ => apply Qle_bool_false in H
  | H : Qltb _ _ = true |- _ => apply Qltb_lt in H
  | H : Qltb _ _ = false |- _ => apply Qltb_ge in H
  end.

Ltac split_ifs :=
  repeat match goal with
  | |- context [if Qle_bool ?a ?b then _ else _] =>
      let E := fresh "E" in destruct (Qle_bool a b) eqn:E
  | |- context [if Qltb ?a ?b then _ else _] =>
      let E := fresh "E" in destruct (Qltb a b) eqn:E
  end.

(** X1: the debt multiplier never decreases when the cookbook ratio grows. *)
Theorem getDebtMultiplier_monotone (r1 r2 : number) :
  (r1 <=? r2) = true ->
  (getDebtMultiplier r1 <=? getDebtMultiplier r2) = true.
Proof.
  intros H. rewrite !getDebtMultiplier_scan.
  destruct r1 as [p| | |], r2 as [q| | |]; try discriminate H; simpl in H |- *.
  all: split_ifs; try reflexivity; exfalso; order_facts; lra.
Qed.

Lemma getDebtMultiplier_monotone_witness :
  (getDebtMultiplier (Fin 60) <=? getDebtMultiplier (Fin 300)) = true.
Proof. exact (getDebtMultiplier_monotone (Fin 60) (Fin 300) eq_refl). Defined.

Lemma getDebtMultiplier_range (ratio : number) :
  (Fin 1 <=? getDebtMultiplier ratio) = true /\
  (getDebtMultiplier ratio <=? Fin 2.5) = true.
Proof.
  rewrite getDebtMultiplier_scan.
  split; repeat (destruct (ratio <=? _); [reflexivity|]); reflexivity.
Qed.

(** X2: the scan of the table finds a tier for every ratio but [NaN]; the
    [return 2.5] behind the loop is taken for [NaN] only.  Whatever the
    ratio, the multiplier lies between 1 and 2.5. *)
Theorem getDebtMultiplier_fallback (ratio : number) :
  (firstTier BENCHMARKS.debtMultipliers ratio = None <-> ratio = NaN) /\
  (Fin 1 <=? getDebtMultiplier ratio) = true /\
  (getDebtMultiplier ratio <=? Fin 2.5) = true.
Proof.
  split; [|apply getDebtMultiplier_range].
  unfold BENCHMARKS.debtMultipliers. split.
  - destruct ratio as [q| | |]; simpl; try discriminate; [|reflexivity].
    repeat (destruct (Qle_bool _ _); [discriminate|]). discriminate.
  - intros ->. reflexivity.
Qed.

(** ** Health metrics *)

(** Score and issues of [calculateHealthMetrics] in terms of its two
    ratios. *)
Lemma calculateHealthMetrics_score_issues (data : OrganizationData) :
  let m := calculateHealthMetrics data in
  let ratio := cookbookRatio m in
  let perFte := cookbooksPerFte m in
  healthScore m =
    (if perFte >? Fin 300 then ratioScore ratio
     else if perFte <? Fin 50
          then match ratioScore ratio with healthy => warning | s => s end
          else ratioScore ratio) /\
  issues m =
    ratioIssues ratio ++
    (if perFte >? Fin 300 then [Understaffing perFte]
     else if perFte <? Fin 50 then [LowFteEfficiency perFte] else []).
Proof.
  destruct (calculateHealthMetrics_stages data) as (m0 & Hs & Hi & ->).
  cbv zeta.
  destruct (scoreFteEfficiency_fields (scoreCookbookRatio m0)) as (-> & -> & _).
  destruct (scoreCookbookRatio_fields m0) as (Hr & Hf & _).
  pose proof (scoreCookbookRatio_score m0 Hs) as Hscore.
  pose proof (scoreCookbookRatio_issues m0) as Hissues.
  rewrite Hi in Hissues. simpl in Hissues.
  rewrite Hr, Hf. rewrite <- Hscore, <- Hissues.
  unfold scoreFteEfficiency.
  change BENCHMARKS.healthThresholds.cookbooksPerFte.critical with (Fin 50).
  rewrite Hf.
  destruct (cookbooksPerFte m0 >? Fin 300); [split; reflexivity|].
  destruct (cookbooksPerFte m0 <? Fin 50).
  - destruct (healthScore (scoreCookbookRatio m0)) eqn:E; simpl;
      rewrite ?E, ?Hf; split; reflexivity.
  - split; [reflexivity|]. now rewrite app_nil_r.
Qed.

Lemma calculateHealthMetrics_no_nodes (data : OrganizationData) :
  (totalManagedNodes (infrastructure data) >? Fin 0) = false ->
  cookbookRatio (calculateHealthMetrics data) = Fin 0.
Proof.
  intros H. unfold calculateHealthMetrics.
  set (m3 := set_debtMultiplier _ _).
  destruct (scoreFteEfficiency_fields (scoreCookbookRatio m3)) as (-> & _).
  destruct (scoreCookbookRatio_fields m3) as (-> & _).
  subst m3. rewrite H.
  destruct (totalFte data >? Fin 0); reflexivity.
Qed.

(** X3: without nodes (a node count that is not positive) the cookbook ratio
    is 0, the debt multiplier 1.0, the cookbook ratio raises no issue and the
    health score is not 'critical'. *)
Theorem health_without_nodes (data : OrganizationData) :
  (totalManagedNodes (infrastructure data) >? Fin 0) = false ->
  let m := calculateHealthMetrics data in
  cookbookRatio m = Fin 0 /\
  debtMultiplier m = Fin 1.0 /\
  healthScore m <> critical /\
  (forall i, In i (issues m) ->
     i = Understaffing (cookbooksPerFte m) \/
     i = LowFteEfficiency (cookbooksPerFte m)).
Proof.
  intros H. cbv zeta.
  pose proof (calculateHealthMetrics_no_nodes data H) as Hr.
  destruct (calculateHealthMetrics_score_issues data) as [Hs Hi].
  cbv zeta in Hs, Hi. rewrite Hr in Hs, Hi.
  change (ratioScore (Fin 0)) with healthy in Hs.
  change (ratioIssues (Fin 0)) with (@nil Issue) in Hi.
  rewrite app_nil_l in Hi.
  split; [exact Hr|]. split.
  { rewrite calculateHealthMetrics_debtMultiplier, Hr. reflexivity. }
  split.
  - rewrite Hs.
    destruct (cookbooksPerFte _ >? Fin 300); [discriminate|].
    destruct (cookbooksPerFte _ <? Fin 50); discriminate.
  - intros i. rewrite Hi.
    destruct (cookbooksPerFte _ >? Fin 300); [simpl; intuition|].
    destruct (cookbooksPerFte _ <? Fin 50); simpl; intuition.
Qed.

Lemma health_without_nodes_witness :
  cookbookRatio (calculateHealthMetrics zeroData) = Fin 0 /\
  debtMultiplier (calculateHealthMetrics zeroData) = Fin 1.0.
Proof.
  destruct (health_without_nodes zeroData eq_refl) as (H1 & H2 & _).
  split; assumption.
Defined.

Lemma healthScore_cases (data : OrganizationData) :
  let m := calculateHealthMetrics data in
  (healthScore m = critical <-> (cookbookRatio m >? Fin 500) = true) /\
  (healthScore m = healthy <->
     (cookbookRatio m >? Fin 25) = false /\
     ((cookbooksPerFte m >? Fin 300) = true \/
      (cookbooksPerFte m <? Fin 50) = false)).
Proof.
  cbv zeta. destruct (calculateHealthMetrics_score_issues data) as [Hs _].
  cbv zeta in Hs. rewrite Hs. clear Hs. unfold ratioScore.
  assert (Hgt : (cookbookRatio (calculateHealthMetrics data) >? Fin 500) = true ->
                (cookbookRatio (calculateHealthMetrics data) >? Fin 25) = true).
  { destruct (cookbookRatio _) as [q| | |]; simpl; try discriminate; auto.
    intros H. order_facts. apply Qltb_lt. lra. }
  destruct (cookbookRatio _ >? Fin 500) eqn:E500.
  - rewrite (Hgt eq_refl).
    destruct (cookbooksPerFte _ >? Fin 300);
      [|destruct (cookbooksPerFte _ <? Fin 50)];
      (split; split; try reflexivity; try discriminate;
       intros [? _]; discriminate).
  - clear Hgt. destruct (cookbookRatio _ >? Fin 25) eqn:E25;
      destruct (cookbooksPerFte _ >? Fin 300) eqn:E300;
      destruct (cookbooksPerFte _ <? Fin 50) eqn:E50;
      (split; split; try reflexivity; try discriminate; try tauto;
       try (intros [? [?|?]]; discriminate)).
Qed.

(** X4: the health score is 'critical' exactly when the cookbook ratio
    exceeds 500 (cookbooks per FTE never make it 'critical'), and 'healthy'
    exactly when the ratio does not exceed 25 and cookbooks per FTE are above
    300 or not below 50. *)
Theorem healthScore_characterised (data : OrganizationData) :
  let m := calculateHealthMetrics data in
  (healthScore m = critical <-> (cookbookRatio m >? Fin 500) = true) /\
  (healthScore m = healthy <->
     (cookbookRatio m >? Fin 25) = false /\
     ((cookbooksPerFte m >? Fin 300) = true \/
      (cookbooksPerFte m <? Fin 50) = false)).
Proof. exact (healthScore_cases data). Qed.

Lemma healthScore_characterised_witness :
  healthScore (calculateHealthMetrics fragmentedData) = critical.
Proof.
  apply (proj1 (healthScore_characterised fragmentedData)). reflexivity.
Defined.

(** X5: an empty issue list means a 'healthy' score, a score that is not
    'healthy' comes with at least one issue, and there are never more than
    two issues. *)
Theorem issues_and_score (data : OrganizationData) :
  let m := calculateHealthMetrics data in
  (issues m = [] -> healthScore m = healthy) /\
  (healthScore m <> healthy -> issues m <> []) /\
  (List.length (issues m) <= 2)%nat.
Proof.
  cbv zeta. destruct (calculateHealthMetrics_score_issues data) as [Hs Hi].
  cbv zeta in Hs, Hi. rewrite Hs, Hi. clear Hs Hi.
  unfold ratioScore, ratioIssues.
  destruct (cookbookRatio _ >? Fin 500); [|destruct (cookbookRatio _ >? Fin 25)];
    (destruct (cookbooksPerFte _ >? Fin 300);
     [|destruct (cookbooksPerFte _ <? Fin 50)]); simpl;
    repeat split; try discriminate; try congruence; auto.
Qed.

Lemma issues_and_score_witness :
  issues (calculateHealthMetrics fragmentedData) <> [].
Proof.
  apply (proj1 (proj2 (issues_and_score fragmentedData))).
  vm_compute. discriminate.
Defined.

(** ** Cost breakdown *)

Lemma forallb_nonneg_cons (x : number) (l : list number) :
  forallb nonneg (x :: l) = true ->
  exists q : Q, x = Fin q /\ (0 <= q)%Q /\ forallb nonneg l = true.
Proof.
  simpl. intros H. apply andb_prop in H. destruct H as [Hx Hl].
  unfold nonneg in Hx. apply andb_prop in Hx. destruct Hx as [Hf Hq].
  destruct x as [q| | |]; try discriminate Hf.
  exists q. repeat split; [|exact Hl]. now apply Qle_bool_iff.
Qed.

Ltac nonneg_fields H :=
  repeat (apply forallb_nonneg_cons in H;
          let q := fresh "q" in let Hq := fresh "Hq" in
          destruct H as (q & -> & Hq & H)).

Ltac nonneg_data data H :=
  destruct data as [[] [] [] [] []]; unfold nonneg_data in H;
  cbn [infrastructure cookbooks team incidents licensing
       totalManagedNodes productionNodes stagingNodes developmentNodes
       chefServerCount monthlyServerCost chefRunIntervalMinutes
       totalCookbooks uniqueCookbookNames activeCookbooks tier1Simple
       tier2Standard tier3Complex avgCookbooksPerNode
       dedicatedEngineers partTimeContributors partTimeAllocationPct
       averageSalary benefitsMultiplier
       monthlyIncidents averageMttrHours engineersPerIncident
       annualLicenseCost negotiatedRatePerNode annualTrainingBudget
       monthlyCicdCost annualContractorSpend] in H;
  nonneg_fields H.

Ltac nonneg_tco tco H :=
  destruct tco; unfold nonneg_tco in H;
  cbn [licensingCost infrastructureCost platformLaborCost
       distributedLaborCost incidentCost technicalDebtTax trainingCost
       contractorCost opportunityCost directCosts laborCosts totalAnnualTco] in H;
  nonneg_fields H.

Lemma Qadd_nonneg (a b : Q) : (0 <= a -> 0 <= b -> 0 <= a + b)%Q.
Proof. intros. lra. Qed.

Lemma Qdiv_nonneg (a b : Q) : (0 <= a -> 0 < b -> 0 <= a / b)%Q.
Proof.
  intros Ha Hb. apply Qle_shift_div_l; [exact Hb|]. lra.
Qed.

(** Proves [0 <= e] for sums, products and quotients of non-negative terms. *)
Ltac Qnonneg :=
  repeat first
    [ assumption
    | solve [lra]
    | apply Qdiv_nonneg
    | apply Qmult_le_0_compat
    | apply Qadd_nonneg ].

Lemma nonneg_finite_data (data : OrganizationData) :
  nonneg_data data = true -> finite_data data = true.
Proof. intros H. nonneg_data data H. reflexivity. Qed.

Lemma nonneg_finite_tco (tco : TCOBreakdown) :
  nonneg_tco tco = true -> finite_tco tco = true.
Proof. intros H. nonneg_tco tco H. reflexivity. Qed.

Lemma calculateTCO_nonneg (data : OrganizationData) (hm : HealthMetrics) :
  nonneg_data data = true ->
  is_finite (debtMultiplier hm) = true ->
  (Fin 1 <=? debtMultiplier hm) = true ->
  nonneg_tco (calculateTCO data hm) = true.
Proof.
  intros Hd Hf Hm. nonneg_data data Hd.
  destruct hm as [? ? [dm| | |] ? ?]; try discriminate Hf.
  simpl in Hm. apply Qle_bool_iff in Hm.
  unfold calculateTCO, nonneg_tco, nonneg. engine_eval.
  repeat (apply andb_true_intro; split); try reflexivity;
    apply Qle_bool_iff; Qnonneg.
Qed.

(** X6: for a non-negative snapshot no component of the cost breakdown of
    the report is less than 0, and none is greater than the total annual
    TCO. *)
Theorem report_costBreakdown_nonneg (data : OrganizationData) :
  nonneg_data data = true ->
  let t := costBreakdown (generateAnalysisReport data) in
  Forall (fun c => (c <? Fin 0) = false /\ (totalAnnualTco t <? c) = false)
    [ licensingCost t; infrastructureCost t; platformLaborCost t;
      distributedLaborCost t; incidentCost t; technicalDebtTax t;
      trainingCost t; contractorCost t; opportunityCost t ] /\
  (totalAnnualTco t <? Fin 0) = false.
Proof.
  intros Hd. cbv zeta.
  change (costBreakdown (generateAnalysisReport data))
    with (calculateTCO data (calculateHealthMetrics data)).
  assert (Ht : nonneg_tco (calculateTCO data (calculateHealthMetrics data)) = true).
  { apply calculateTCO_nonneg; [exact Hd| |];
      rewrite calculateHealthMetrics_debtMultiplier.
    - apply getDebtMultiplier_finite.
    - apply getDebtMultiplier_range. }
  assert (Hsum :
    let t := calculateTCO data (calculateHealthMetrics data) in
    totalAnnualTco t =
      licensingCost t + infrastructureCost t + platformLaborCost t +
      distributedLaborCost t + incidentCost t + technicalDebtTax t +
      trainingCost t + contractorCost t + opportunityCost t) by reflexivity.
  cbv zeta in Hsum. revert Hsum.
  generalize dependent (calculateTCO data (calculateHealthMetrics data)).
  intros t Ht Hsum. nonneg_tco t Ht. cbn in *. injection Hsum as Hsum.
  split; [|apply Qltb_ge; lra].
  repeat (constructor;
          [split; apply Qltb_ge; [lra|rewrite Hsum; lra]|]).
  constructor.
Qed.

Lemma report_costBreakdown_nonneg_witness :
  (totalAnnualTco (costBreakdown (generateAnalysisReport sampleData)) <? Fin 0) =
  false.
Proof. exact (proj2 (report_costBreakdown_nonneg sampleData eq_refl)). Defined.



(** ** Migration cost and scenarios *)

(** X9: for a non-negative snapshot the migration cost of no platform is
    less than 0, and a platform with a larger migration factor never costs
    less: Ansible not less than Puppet, Terraform not less than Ansible,
    Kubernetes not less than Terraform. *)
Theorem migrationCost_by_platform (data : OrganizationData) :
  nonneg_data data = true ->
  Forall (fun p => (calculateMigrationCost data p <? Fin 0) = false)
    BENCHMARKS.alternatives_keys /\
  (calculateMigrationCost data ansible <? calculateMigrationCost data puppet) = false /\
  (calculateMigrationCost data terraform <? calculateMigrationCost data ansible) = false /\
  (calculateMigrationCost data kubernetes <? calculateMigrationCost data terraform) = false.
Proof.
  intros Hd. nonneg_data data Hd.
  unfold calculateMigrationCost, BENCHMARKS.alternatives_keys. engine_eval.
  match goal with |- context [((?h * 0.7)%Q * ?r)%Q] =>
    assert (Hhr : (0 <= h * r)%Q) by Qnonneg;
    assert (Hh : (0 <= h)%Q) by Qnonneg;
    assert (Hr : (0 <= r)%Q) by Qnonneg
  end.
  match goal with |- context [(_ + ?tr + ?le + _ * 0.1)%Q] =>
    assert (Htr : (0 <= tr)%Q) by Qnonneg;
    assert (Hle : (0 <= le)%Q) by Qnonneg
  end.
  split; [repeat constructor; apply Qltb_ge; nra|].
  repeat split; apply Qltb_ge; nra.
Qed.

Lemma migrationCost_by_platform_witness :
  (calculateMigrationCost sampleData ansible <?
   calculateMigrationCost sampleData puppet) = false.
Proof.
  exact (proj1 (proj2 (migrationCost_by_platform sampleData eq_refl))).
Defined.

Lemma div_zero_not_finite (x : number) (z : Q) :
  (z == 0)%Q -> is_finite (x / Fin z) = false.
Proof.
  intros Hz. apply Qeq_bool_iff in Hz.
  destruct x as [p| | |]; simpl; try reflexivity.
  - rewrite Hz. unfold signed_inf.
    destruct (Qltb 0 p); [reflexivity|]. destruct (Qltb p 0); reflexivity.
  - destruct (Qltb z 0); reflexivity.
  - destruct (Qltb z 0); reflexivity.
Qed.

Lemma add_not_finite_l (x y : number) :
  is_finite x = false -> is_finite (x + y) = false.
Proof. destruct x, y; simpl; intros H; try reflexivity; discriminate H. Qed.

Lemma add_not_finite_r (x y : number) :
  is_finite y = false -> is_finite (x + y) = false.
Proof. destruct x, y; simpl; intros H; try reflexivity; discriminate H. Qed.

(** X10: with a discount rate of -1 every discount factor is 0, and the
    3-year NPV is never a finite number, whatever the snapshot. *)
Theorem npv_discount_rate_minus_one
    (data : OrganizationData) (tco : TCOBreakdown) (platform : Platform) :
  is_finite (npv3Year (calculateScenario data tco platform (Some (Fin (-1))))) = false.
Proof.
  change (npv3Year (calculateScenario data tco platform (Some (Fin (-1)))))
    with (let s := calculateScenario data tco platform (Some (Fin (-1))) in
          (totalAnnualTco tco - year1Cost s) / Fin (1 + -1) +
          (totalAnnualTco tco - year2Cost s) / Fin ((1 + -1) * (1 + -1)) +
          (totalAnnualTco tco - year3Cost s) /
            Fin ((1 + -1) * ((1 + -1) * (1 + -1)))).
  cbv zeta. apply add_not_finite_r. apply div_zero_not_finite. reflexivity.
Qed.

(** X12: for a non-negative snapshot and cost breakdown no projected cost is
    less than 0, year 1 never costs less than the migration, and year 2
    never costs less than year 3. *)
Theorem scenario_year_costs_ordered
    (data : OrganizationData) (tco : TCOBreakdown) (platform : Platform) :
  nonneg_data data = true -> nonneg_tco tco = true ->
  let s := calculateScenario data tco platform None in
  (year3Cost s <? Fin 0) = false /\
  (year2Cost s <? year3Cost s) = false /\
  (year1Cost s <? migrationCost s) = false /\
  (migrationCost s <? Fin 0) = false.
Proof.
  intros Hd Ht. nonneg_data data Hd. nonneg_tco tco Ht.
  unfold calculateScenario, calculateMigrationCost.
  destruct platform; engine_eval.
  all: match goal with |- context [Qltb (?m + ?a + ?b + ?c + ?d) ?m] =>
         assert (Hm : (0 <= m)%Q) by Qnonneg;
         assert (Ha : (0 <= a)%Q) by Qnonneg
       end.
  all: repeat split; apply Qltb_ge; try (Qnonneg; fail); try lra.
Qed.

Lemma scenario_year_costs_ordered_witness :
  let tco := calculateTCO sampleData (calculateHealthMetrics sampleData) in
  let s := calculateScenario sampleData tco puppet None in
  (year2Cost s <? year3Cost s) = false.
Proof.
  exact (proj1 (proj2 (scenario_year_costs_ordered sampleData
     (calculateTCO sampleData (calculateHealthMetrics sampleData)) puppet
     eq_refl eq_refl))).
Defined.

(** X13: with a current total annual TCO greater than 0, the savings
    percentage of a scenario is greater than 0 only if its [savingsVsCurrent]
    is, and it is never greater than 100 when the three-year total is not
    negative. *)
Theorem savingsPercent_guarded_by_positive_tco
    (data : OrganizationData) (tco : TCOBreakdown) (platform : Platform) :
  (totalAnnualTco tco >? Fin 0) = true ->
  let s := calculateScenario data tco platform None in
  ((savingsPercent s >? Fin 0) = true ->
   (savingsVsCurrent s (totalAnnualTco tco) >? Fin 0) = true) /\
  ((Fin 0 <=? threeYearTotal s) = true ->
   (Fin 100 <? savingsPercent s) = false).
Proof.
  intros Hc. cbv zeta. rewrite savingsPercent_eq. unfold savingsVsCurrent.
  generalize (threeYearTotal (calculateScenario data tco platform None)).
  intros T.
  destruct (totalAnnualTco tco) as [c| | |]; try discriminate Hc.
  - simpl in Hc. apply Qltb_lt in Hc.
    assert (H3 : (0 < c * 3)%Q) by lra.
    assert (Hk : (0 < 100 / (c * 3))%Q) by (apply Qlt_shift_div_l; lra).
    destruct T as [T| | |]; cbn; rewrite ?(Qeq_bool_pos _ H3); cbn.
    + assert (E : ((c * 3 + - T) / (c * 3) * 100 ==
                   (c * 3 + - T) * (100 / (c * 3)))%Q) by (field; lra).
      assert (E100 : (100 == (c * 3) * (100 / (c * 3)))%Q) by (field; lra).
      split; intros H.
      * apply Qltb_lt in H. apply Qltb_lt. rewrite E in H. nra.
      * apply Qle_bool_iff in H. apply Qltb_ge. rewrite E.
        rewrite E100 at 2. nra.
    + assert (Hn : Qltb (c * 3) 0 = false) by (apply Qltb_ge; lra).
      rewrite Hn. cbn. split; [discriminate|reflexivity].
    + assert (Hn : Qltb (c * 3) 0 = false) by (apply Qltb_ge; lra).
      rewrite Hn. cbn. split; [reflexivity|discriminate].
    + split; [discriminate|reflexivity].
  - destruct T as [T| | |]; cbn; split; try discriminate; try reflexivity.
Qed.

Lemma savingsPercent_guarded_by_positive_tco_witness :
  let tco := calculateTCO sampleData (calculateHealthMetrics sampleData) in
  (Fin 100 <? savingsPercent (calculateScenario sampleData tco terraform None)) =
  false.
Proof.
  apply (proj2 (savingsPercent_guarded_by_positive_tco sampleData
     (calculateTCO sampleData (calculateHealthMetrics sampleData)) terraform
     eq_refl)).
  reflexivity.
Defined.

(** ** Report: scenarios and recommendations *)

Lemma report_recommendations (data : OrganizationData) :
  let r := generateAnalysisReport data in
  recommendations r =
    (if cookbookRatio (healthMetrics r) >? Fin 100
     then [ConsolidateCookbooks (cookbookRatio (healthMetrics r))] else []) ++
    (if debtMultiplier (healthMetrics r) >=? Fin 1.5
     then [DebtTaxCost (technicalDebtTax (costBreakdown r))] else []) ++
    (match scenarios r with
     | bestScenario :: _ =>
         if npv3Year bestScenario >? Fin 0
         then [ConsiderScenario (name bestScenario) (npv3Year bestScenario)
                 (breakEvenMonths bestScenario)]
         else []
     | [] => []
     end) ++
    (if monthlyIncidents (incidents data) >? Fin 20
     then [HighIncidentRate (monthlyIncidents (incidents data))] else []).
Proof.
  cbv zeta. unfold generateAnalysisReport.
  cbv beta zeta iota delta [recommendations healthMetrics costBreakdown scenarios push].
  destruct (cookbookRatio _ >? Fin 100);
    destruct (debtMultiplier _ >=? Fin 1.5);
    (destruct (Array_sort _ _) as [|best rest];
     [|destruct (npv3Year best >? Fin 0)]);
    destruct (monthlyIncidents _ >? Fin 20); reflexivity.
Qed.

Lemma ratio_above_100_multiplier (ratio : number) :
  (ratio >? Fin 100) = true -> (getDebtMultiplier ratio >=? Fin 1.5) = true.
Proof.
  intros H. rewrite getDebtMultiplier_scan.
  destruct ratio as [q| | |]; try discriminate H; simpl in H |- *.
  - order_facts. split_ifs; try reflexivity; exfalso; order_facts; lra.
  - reflexivity.
Qed.

Lemma multiplier_ratio_above_100 (ratio : number) :
  is_finite ratio = true ->
  (getDebtMultiplier ratio >=? Fin 1.5) = true -> (ratio >? Fin 100) = true.
Proof.
  intros Hf. rewrite getDebtMultiplier_scan.
  destruct ratio as [q| | |]; try discriminate Hf. simpl.
  split_ifs; intros H; try (apply Qltb_lt; order_facts; lra);
    exfalso; vm_compute in H; discriminate H.
Qed.

(** X14: whenever the report recommends consolidating cookbooks (cookbook
    ratio above 100) it also reports the cost of the technical debt, right
    behind it; for a numeric snapshot the two recommendations come
    together or not at all. *)
Theorem recommendations_consolidate_and_debt (data : OrganizationData) :
  let r := generateAnalysisReport data in
  let consolidate := ConsolidateCookbooks (cookbookRatio (healthMetrics r)) in
  let debt := DebtTaxCost (technicalDebtTax (costBreakdown r)) in
  (In consolidate (recommendations r) <->
     (cookbookRatio (healthMetrics r) >? Fin 100) = true) /\
  (In consolidate (recommendations r) ->
     exists rest, recommendations r = consolidate :: debt :: rest) /\
  (finite_data data = true ->
     In debt (recommendations r) -> In consolidate (recommendations r)).
Proof.
  cbv zeta. rewrite report_recommendations. cbv zeta.
  assert (Hdm : debtMultiplier (healthMetrics (generateAnalysisReport data)) =
                getDebtMultiplier
                  (cookbookRatio (healthMetrics (generateAnalysisReport data)))).
  { apply calculateHealthMetrics_debtMultiplier. }
  rewrite Hdm.
  set (ratio := cookbookRatio _) in *.
  set (tax := technicalDebtTax _) in *.
  set (best := match scenarios _ with [] => [] | _ :: _ => _ end).
  set (inc := if monthlyIncidents _ >? _ then _ else _).
  assert (Hbest : forall x, In x best ->
            x <> ConsolidateCookbooks ratio /\ x <> DebtTaxCost tax).
  { subst best. intros x. destruct (scenarios _) as [|b ?]; [intros []|].
    destruct (npv3Year b >? Fin 0); [|intros []].
    intros [<-|[]]. split; discriminate. }
  assert (Hinc : forall x, In x inc ->
            x <> ConsolidateCookbooks ratio /\ x <> DebtTaxCost tax).
  { subst inc. intros x. destruct (_ >? _); [|intros []].
    intros [<-|[]]. split; discriminate. }
  assert (Hrest : forall x, In x (best ++ inc) ->
            x <> ConsolidateCookbooks ratio /\ x <> DebtTaxCost tax).
  { intros x Hx. apply in_app_or in Hx. destruct Hx; auto. }
  clearbody best inc.
  pose proof (ratio_above_100_multiplier ratio) as Hup.
  assert (Hfin : finite_data data = true -> is_finite ratio = true).
  { intros Hd. apply (health_ratios_guarded data Hd). }
  pose proof (multiplier_ratio_above_100 ratio) as Hdown.
  destruct (ratio >? Fin 100) eqn:E100.
  - rewrite (Hup eq_refl). simpl. repeat split; auto.
    intros _. now exists (best ++ inc).
  - destruct (getDebtMultiplier ratio >=? Fin 1.5) eqn:E15; simpl.
    + repeat split.
      * intros [H|H]; [discriminate H|]. apply Hrest in H. now destruct H.
      * discriminate.
      * intros [H|H]; [discriminate H|]. apply Hrest in H. now destruct H.
      * intros Hd _. specialize (Hdown (Hfin Hd) eq_refl). discriminate Hdown.
    + repeat split.
      * intros H. apply Hrest in H. now destruct H.
      * discriminate.
      * intros H. apply Hrest in H. now destruct H.
      * intros _ H. apply Hrest in H. now destruct H.
Qed.

Lemma recommendations_consolidate_and_debt_witness :
  let r := generateAnalysisReport fragmentedData in
  exists rest,
    recommendations r =
      ConsolidateCookbooks (cookbookRatio (healthMetrics r))
      :: DebtTaxCost (technicalDebtTax (costBreakdown r)) :: rest.
Proof.
  apply (proj1 (proj2 (recommendations_consolidate_and_debt fragmentedData))).
  apply (proj1 (recommendations_consolidate_and_debt fragmentedData)).
  reflexivity.
Defined.

(** X15: a 'critical' health score always comes with the recommendation to
    consolidate cookbooks, first in the list. *)
Theorem critical_health_recommendation (data : OrganizationData) :
  let r := generateAnalysisReport data in
  healthScore (healthMetrics r) = critical ->
  hd_error (recommendations r) =
    Some (ConsolidateCookbooks (cookbookRatio (healthMetrics r))).
Proof.
  cbv zeta. intros H.
  change (healthMetrics (generateAnalysisReport data))
    with (calculateHealthMetrics data) in H.
  apply (healthScore_cases data) in H.
  rewrite report_recommendations. cbv zeta.
  change (healthMetrics (generateAnalysisReport data))
    with (calculateHealthMetrics data).
  assert (H100 : (cookbookRatio (calculateHealthMetrics data) >? Fin 100) = true).
  { destruct (cookbookRatio _) as [q| | |]; try discriminate H; [|reflexivity].
    simpl in *. order_facts. apply Qltb_lt. lra. }
  rewrite H100. reflexivity.
Qed.

Lemma critical_health_recommendation_witness :
  let r := generateAnalysisReport fragmentedData in
  hd_error (recommendations r) =
    Some (ConsolidateCookbooks (cookbookRatio (healthMetrics r))).
Proof.
  cbv zeta. apply critical_health_recommendation. reflexivity.
Defined.

Lemma Platform_eqb_eq (p q : Platform) : Platform_eqb p q = true <-> p = q.
Proof. destruct p, q; simpl; split; intros H; try reflexivity; discriminate H. Qed.

(** X16: looking a platform up in the scenarios of a report always succeeds
    and finds the scenario computed for that platform, whatever the order
    the sort left them in. *)
Theorem selectedScenario_found (data : OrganizationData) (p : Platform) :
  selectedScenario (scenarios (generateAnalysisReport data)) p =
    Some (calculateScenario data
            (calculateTCO data (calculateHealthMetrics data)) p None).
Proof.
  unfold selectedScenario.
  destruct (find _ _) as [s|] eqn:E.
  - apply find_some in E. destruct E as [Hin Hp].
    apply report_scenarios_in in Hin. destruct Hin as (q & ->).
    apply Platform_eqb_eq in Hp. simpl in Hp. now subst q.
  - exfalso.
    assert (Hin : In (calculateScenario data
                        (calculateTCO data (calculateHealthMetrics data)) p None)
                     (scenarios (generateAnalysisReport data))).
    { apply report_scenarios_in. now exists p. }
    apply (find_none _ _ E) in Hin. simpl in Hin.
    destruct p; discriminate Hin.
Qed.

Lemma leb_trans (x y z : number) :
  (x <=? y) = true -> (y <=? z) = true -> (x <=? z) = true.
Proof.
  destruct x, y, z; simpl; intros H1 H2; try reflexivity; try discriminate.
  order_facts. apply Qle_bool_iff. lra.
Qed.

Lemma leb_refl_finite (x : number) : is_finite x = true -> (x <=? x) = true.
Proof.
  destruct x; try discriminate. intros _. apply Qle_bool_iff. lra.
Qed.

(** X17: the first scenario of the report is the one recommended, exactly
    when its 3-year NPV is greater than 0, and the one the Scenarios page
    selects at first; whenever the NPVs of the scenarios are finite numbers
    it has the greatest NPV of all. *)
Theorem best_scenario_first (data : OrganizationData) :
  let r := generateAnalysisReport data in
  exists best rest,
    scenarios r = best :: rest /\
    (In (ConsiderScenario (name best) (npv3Year best) (breakEvenMonths best))
        (recommendations r) <->
     (npv3Year best >? Fin 0) = true) /\
    selectedScenario (scenarios r) (initialSelectedPlatform (scenarios r)) =
      Some best /\
    (Forall (fun s => is_finite (npv3Year s) = true) (scenarios r) ->
     forall s, In s (scenarios r) -> (npv3Year best >=? npv3Year s) = true).
Proof.
  cbv zeta.
  assert (Hsorted :
    Forall (fun s => is_finite (npv3Year s) = true)
      (scenarios (generateAnalysisReport data)) ->
    Sorted (fun a b => (npv3Year a >=? npv3Year b) = true)
      (scenarios (generateAnalysisReport data))).
  { intros Hfin. rewrite report_scenarios. apply (Array_sort_sorted npv3Year).
    eapply Permutation_Forall; [|exact Hfin].
    rewrite report_scenarios. apply (Array_sort_perm npv3Year). }
  pose proof (report_recommendations data) as Hrec. cbv zeta in Hrec.
  destruct (scenarios (generateAnalysisReport data)) as [|best rest] eqn:Es.
  { exfalso. pose proof (Permutation_length (report_scenarios_perm data)) as Hl.
    rewrite Es in Hl. discriminate Hl. }
  exists best, rest. split; [reflexivity|]. split; [|split].
  - rewrite Hrec.
    destruct (cookbookRatio _ >? Fin 100); destruct (debtMultiplier _ >=? Fin 1.5);
      destruct (npv3Year best >? Fin 0); destruct (monthlyIncidents _ >? Fin 20);
      simpl;
      (split;
       [ intros H; try reflexivity;
         repeat (destruct H as [H|H]; try discriminate H); contradiction
       | intros H; try discriminate H; intuition ]).
  - unfold selectedScenario, initialSelectedPlatform. simpl.
    assert (E : Platform_eqb (platform best) (platform best) = true)
      by (now apply Platform_eqb_eq).
    now rewrite E.
  - intros Hfin. specialize (Hsorted Hfin).
    assert (Htrans : Relation_Definitions.transitive _
               (fun a b : ScenarioResult => (npv3Year a >=? npv3Year b) = true)).
    { intros a b c Hab Hbc. unfold geb in *. eapply leb_trans; eassumption. }
    pose proof (Sorted_extends Htrans Hsorted) as Hall.
    rewrite Forall_forall in Hall.
    intros s [<-|Hs]; [|now apply Hall].
    apply leb_refl_finite. exact (Forall_inv Hfin).
Qed.

Lemma best_scenario_first_witness :
  exists best,
    forall s, In s (scenarios (generateAnalysisReport sampleData)) ->
      (npv3Year best >=? npv3Year s) = true.
Proof.
  destruct (best_scenario_first sampleData) as (best & rest & _ & _ & _ & H).
  exists best. apply H. vm_compute. repeat constructor.
Defined.

Lemma Qdiv_one (t : Q) : (t / 1 == t)%Q.
Proof. field. Qed.

Lemma per_unit_bounds (T n : number) :
  let p := T / max (Fin 1) n in
  ((Fin 0 <=? T) = true -> (p <? Fin 0) = false /\ (T <? p) = false) /\
  ((n <=? Fin 1) = true -> same_value p T).
Proof.
  cbv zeta. split.
  - intros HT. destruct T as [t| | |]; try discriminate HT.
    + simpl in HT. apply Qle_bool_iff in HT.
      destruct n as [q| | |]; simpl; try (split; reflexivity).
      * destruct (Qltb 1 q) eqn:E; order_facts.
        -- assert (Hq : (0 < q)%Q) by lra.
           rewrite (Qeq_bool_pos _ Hq). simpl.
           split; apply Qltb_ge.
           ++ apply Qdiv_nonneg; assumption.
           ++ apply Qle_shift_div_r; [exact Hq|nra].
        -- simpl. split; apply Qltb_ge; rewrite Qdiv_one; lra.
      * split; apply Qltb_ge; lra.
      * split; apply Qltb_ge; rewrite Qdiv_one; lra.
    + destruct n as [q| | |]; simpl; try (split; reflexivity).
      destruct (Qltb 1 q) eqn:E; order_facts.
      * assert (Hn : Qltb q 0 = false) by (apply Qltb_ge; lra).
        rewrite Hn. split; reflexivity.
      * split; reflexivity.
  - intros Hn.
    destruct n as [q| | |]; try discriminate Hn; simpl.
    + simpl in Hn. apply Qle_bool_iff in Hn.
      assert (E : Qltb 1 q = false) by (apply Qltb_ge; exact Hn).
      rewrite E. destruct T as [t| | |]; simpl; try exact I.
      apply Qdiv_one.
    + destruct T as [t| | |]; simpl; try exact I.
      apply Qdiv_one.
Qed.

(** X18: every per-unit cost of the report lies between 0 and the total
    annual TCO when that total is not negative (it is never less than 0 and
    never greater than the total), and is the total itself when there is at
    most one unit (one node, one active cookbook, one dedicated engineer, or
    fewer). *)
Theorem perUnitCosts_bounded (data : OrganizationData) :
  let r := generateAnalysisReport data in
  let T := totalAnnualTco (costBreakdown r) in
  Forall (fun '(p, n) =>
            ((Fin 0 <=? T) = true -> (p <? Fin 0) = false /\ (T <? p) = false) /\
            ((n <=? Fin 1) = true -> same_value p T))
    [ (perNode (perUnitCosts r), totalManagedNodes (infrastructure data));
      (perCookbook (perUnitCosts r), activeCookbooks (cookbooks data));
      (perFte (perUnitCosts r), dedicatedEngineers (team data)) ].
Proof.
  cbv zeta.
  repeat (apply Forall_cons; [exact (per_unit_bounds _ _)|]). apply Forall_nil.
Qed.

Lemma perUnitCosts_bounded_witness :
  let r := generateAnalysisReport sampleData in
  (perNode (perUnitCosts r) <? Fin 0) = false /\
  (totalAnnualTco (costBreakdown r) <? perNode (perUnitCosts r)) = false.
Proof.
  pose proof (perUnitCosts_bounded sampleData) as H. cbv zeta in H.
  apply Forall_inv in H. apply (proj1 H). reflexivity.
Defined.

(** ** Benchmarks page *)

(** X19: on the Benchmarks page the cookbook-ratio row is 'critical' exactly
    when the overall health score is, a 'healthy' overall score means a
    'healthy' cookbook-ratio row, and a 'critical' FTE-efficiency row never
    goes with a 'healthy' overall score (nor, by itself, with a 'critical'
    one). *)
Theorem benchmark_rows_and_health (data : OrganizationData) :
  let r := generateAnalysisReport data in
  (getCookbookRatioStatus r = critical <->
     healthScore (healthMetrics r) = critical) /\
  (healthScore (healthMetrics r) = healthy -> getCookbookRatioStatus r = healthy) /\
  (getFteEfficiencyStatus r = critical -> healthScore (healthMetrics r) <> healthy).
Proof.
  cbv zeta. unfold getCookbookRatioStatus, getFteEfficiencyStatus.
  change (healthMetrics (generateAnalysisReport data))
    with (calculateHealthMetrics data).
  change BENCHMARKS.healthThresholds.cookbookRatio.critical with (Fin 500).
  change BENCHMARKS.healthThresholds.cookbookRatio.healthy with (Fin 25).
  change BENCHMARKS.healthThresholds.cookbooksPerFte.critical with (Fin 50).
  change BENCHMARKS.healthThresholds.cookbooksPerFte.healthy with (Fin 150).
  destruct (healthScore_cases data) as [Hc Hh]. cbv zeta in Hc, Hh.
  rewrite Hc, Hh. clear Hc Hh.
  assert (Hexcl : (cookbooksPerFte (calculateHealthMetrics data) <? Fin 50) = true ->
                  (cookbooksPerFte (calculateHealthMetrics data) >? Fin 300) = false).
  { destruct (cookbooksPerFte _) as [q| | |]; simpl; try discriminate; auto.
    intros H. order_facts. apply Qltb_ge. lra. }
  assert (Hgt : (cookbookRatio (calculateHealthMetrics data) >? Fin 500) = true ->
                (cookbookRatio (calculateHealthMetrics data) >? Fin 25) = true).
  { destruct (cookbookRatio _) as [q| | |]; simpl; try discriminate; auto.
    intros H. order_facts. apply Qltb_lt. lra. }
  split; [|split].
  - destruct (cookbookRatio _ >? Fin 500); [split; reflexivity|].
    destruct (cookbookRatio _ >? Fin 25); split; discriminate.
  - intros [H25 _].
    destruct (cookbookRatio _ >? Fin 500).
    + rewrite (Hgt eq_refl) in H25. discriminate H25.
    + now rewrite H25.
  - intros Hfte [_ [H300|H50]].
    + destruct (cookbooksPerFte _ <? Fin 50).
      * rewrite (Hexcl eq_refl) in H300. discriminate H300.
      * destruct (cookbooksPerFte _ <? Fin 150); discriminate Hfte.
    + rewrite H50 in Hfte.
      destruct (cookbooksPerFte _ <? Fin 150); discriminate Hfte.
Qed.

Lemma benchmark_rows_and_health_witness :
  getCookbookRatioStatus (generateAnalysisReport fragmentedData) = critical.
Proof.
  apply (proj1 (benchmark_rows_and_health fragmentedData)). reflexivity.
Defined.

(** X20: for a numeric snapshot the debt-multiplier row is 'healthy' exactly
    when the cookbook-ratio row is, and 'critical' exactly when the cookbook
    ratio exceeds 250. *)
Theorem debt_row_and_ratio (data : OrganizationData) :
  finite_data data = true ->
  let r := generateAnalysisReport data in
  (getDebtMultiplierStatus r = healthy <-> getCookbookRatioStatus r = healthy) /\
  (getDebtMultiplierStatus r = critical <->
     (cookbookRatio (healthMetrics r) >? Fin 250) = true).
Proof.
  intros Hd. cbv zeta. unfold getDebtMultiplierStatus, getCookbookRatioStatus.
  change (healthMetrics (generateAnalysisReport data))
    with (calculateHealthMetrics data).
  change BENCHMARKS.healthThresholds.cookbookRatio.critical with (Fin 500).
  change BENCHMARKS.healthThresholds.cookbookRatio.healthy with (Fin 25).
  rewrite calculateHealthMetrics_debtMultiplier, getDebtMultiplier_scan.
  destruct (health_ratios_guarded data Hd) as (Hr & _). cbv zeta in Hr.
  destruct (cookbookRatio _) as [q| | |]; try discriminate Hr. cbn [leb gtb ltb].
  destruct (Qle_bool q 25) eqn:E25; [|destruct (Qle_bool q 50) eqn:E50;
    [|destruct (Qle_bool q 100) eqn:E100; [|destruct (Qle_bool q 250) eqn:E250;
    [|destruct (Qle_bool q 500) eqn:E500]]]];
    destruct (Qltb 500 q) eqn:L500; destruct (Qltb 25 q) eqn:L25;
    destruct (Qltb 250 q) eqn:L250;
    try (exfalso; order_facts; lra);
    repeat split; intros H; try reflexivity; try discriminate H;
    vm_compute in H; try discriminate H.
Qed.

Lemma debt_row_and_ratio_witness :
  let r := generateAnalysisReport sampleData in
  getDebtMultiplierStatus r = healthy <-> getCookbookRatioStatus r = healthy.
Proof. exact (proj1 (debt_row_and_ratio sampleData eq_refl)). Defined.

Lemma report_debtMultiplier (data : OrganizationData) :
  let r := generateAnalysisReport data in
  debtMultiplier (healthMetrics r) = getDebtMultiplier (cookbookRatio (healthMetrics r)).
Proof. apply calculateHealthMetrics_debtMultiplier. Qed.

Ltac six_cases j Hj :=
  do 6 (destruct j as [|j]; [reflexivity|]);
  exfalso; repeat apply PeanoNat.lt_S_n in Hj; inversion Hj.

(** X21: on the debt multiplier scale, a positive cookbook ratio marks
    exactly one card as current, the one of the tier whose multiplier the
    report uses; a ratio that is not positive (no nodes or no active
    cookbooks) marks none, although the multiplier of the first tier is
    used. *)
Theorem debtScale_current_card (data : OrganizationData) :
  let r := generateAnalysisReport data in
  let ratio := cookbookRatio (healthMetrics r) in
  ((Fin 0 <? ratio) = true ->
   exists i t,
     nth_error BENCHMARKS.debtMultipliers i = Some t /\
     multiplier t = debtMultiplier (healthMetrics r) /\
     forall j, (j < 6)%nat ->
       nth_error (debtScale_isActive r) j = Some (Nat.eqb j i)) /\
  ((Fin 0 <? ratio) = false ->
   debtScale_isActive r = [false; false; false; false; false; false]).
Proof.
  cbv zeta. rewrite report_debtMultiplier, getDebtMultiplier_scan.
  unfold debtScale_isActive, BENCHMARKS.debtMultipliers.
  cbn [List.length seq combine map nth Nat.ltb Nat.leb Nat.sub threshold multiplier].
  set (ratio := cookbookRatio _).
  split.
  - intros Hpos. destruct ratio as [q| | |]; try discriminate Hpos.
    + simpl in Hpos. cbn [gtb ltb leb].
      rewrite Hpos.
      destruct (Qle_bool q 25) eqn:E25; [|destruct (Qle_bool q 50) eqn:E50;
        [|destruct (Qle_bool q 100) eqn:E100; [|destruct (Qle_bool q 250) eqn:E250;
        [|destruct (Qle_bool q 500) eqn:E500]]]].
      all: repeat match goal with
           | |- context [Qltb ?a ?b] =>
               let E := fresh "L" in
               destruct (Qltb a b) eqn:E;
               [ try (exfalso; order_facts; lra) | try (exfalso; order_facts; lra) ]
           | |- context [Qle_bool ?b ?a] =>
               let E := fresh "L" in
               destruct (Qle_bool b a) eqn:E;
               [ try (exfalso; order_facts; lra) | try (exfalso; order_facts; lra) ]
           end.
      * exists 0%nat, {| threshold := Fin 25; multiplier := Fin 1.0 |}.
        repeat split. intros j Hj. six_cases j Hj.
      * exists 1%nat, {| threshold := Fin 50; multiplier := Fin 1.1 |}.
        repeat split. intros j Hj. six_cases j Hj.
      * exists 2%nat, {| threshold := Fin 100; multiplier := Fin 1.25 |}.
        repeat split. intros j Hj. six_cases j Hj.
      * exists 3%nat, {| threshold := Fin 250; multiplier := Fin 1.5 |}.
        repeat split. intros j Hj. six_cases j Hj.
      * exists 4%nat, {| threshold := Fin 500; multiplier := Fin 2.0 |}.
        repeat split. intros j Hj. six_cases j Hj.
      * exists 5%nat, {| threshold := PInf; multiplier := Fin 2.5 |}.
        repeat split. intros j Hj. six_cases j Hj.
    + exists 5%nat, {| threshold := PInf; multiplier := Fin 2.5 |}.
      repeat split. intros j Hj. six_cases j Hj.
  - intros Hneg. destruct ratio as [q| | |]; try discriminate Hneg;
      try reflexivity.
    simpl in Hneg. cbn [gtb ltb leb]. rewrite Hneg.
    repeat match goal with
           | |- context [Qltb ?a ?b] =>
               let E := fresh "L" in
               destruct (Qltb a b) eqn:E;
               [ try (exfalso; order_facts; lra) | try (exfalso; order_facts; lra) ]
           end.
    reflexivity.
Qed.

Lemma debtScale_current_card_witness :
  exists i t,
    nth_error BENCHMARKS.debtMultipliers i = Some t /\
    multiplier t = debtMultiplier (healthMetrics (generateAnalysisReport sampleData)).
Proof.
  destruct (proj1 (debtScale_current_card sampleData) eq_refl)
    as (i & t & H1 & H2 & _).
  now exists i, t.
Defined.

(** ** Charts *)

(** X22: the year-over-year chart of the report has the current-state group
    first and then one group per scenario, named 'Ansible', 'Kubernetes',
    'Terraform' and 'Puppet' in the order of the scenarios; the total of
    every scenario group is its three yearly bars added up from left to
    right. *)
Theorem comparison_chart_totals (data : OrganizationData) :
  let r := generateAnalysisReport data in
  exists current groups,
    ScenarioComparisonChart_chartData (scenarios r)
      (totalAnnualTco (costBreakdown r)) = current :: groups /\
    Bars.year1 current = totalAnnualTco (costBreakdown r) /\
    map Bars.name groups =
      map (fun s => capitalize (platformKey (platform s))) (scenarios r) /\
    Permutation (map Bars.name groups)
      ["Ansible"; "Kubernetes"; "Terraform"; "Puppet"]%string /\
    Forall (fun b => Bars.total b = Bars.year1 b + Bars.year2 b + Bars.year3 b)
      groups.
Proof.
  cbv zeta. unfold ScenarioComparisonChart_chartData.
  do 2 eexists. split; [reflexivity|]. split; [reflexivity|].
  rewrite map_map. cbn [Bars.name]. split; [reflexivity|]. split.
  - rewrite <- (map_map platform (fun p => capitalize (platformKey p))).
    change ["Ansible"; "Kubernetes"; "Terraform"; "Puppet"]%string
      with (map (fun p => capitalize (platformKey p))
              [ansible; kubernetes; terraform; puppet]).
    apply Permutation_map.
    rewrite (Permutation_map platform (report_scenarios_perm data)).
    reflexivity.
  - apply Forall_map. apply Forall_forall. intros s Hs.
    apply report_scenarios_in in Hs. destruct Hs as (p & ->).
    reflexivity.
Qed.

(** Assignments to the platform keys of a chart point. *)
Lemma point_get_set_same (point : list (Platform * number)) k v :
  point_get (point_set point k v) k = Some v.
Proof.
  induction point as [|[k' v'] rest IH]; simpl.
  - now rewrite (proj2 (Platform_eqb_eq k k) eq_refl).
  - destruct (Platform_eqb k' k) eqn:E; simpl; rewrite E; [reflexivity|exact IH].
Qed.

Lemma point_get_set_other (point : list (Platform * number)) k k' v :
  k <> k' -> point_get (point_set point k v) k' = point_get point k'.
Proof.
  intros Hne. induction point as [|[k0 v0] rest IH]; simpl.
  - destruct (Platform_eqb k k') eqn:E; [|reflexivity].
    apply Platform_eqb_eq in E. contradiction.
  - destruct (Platform_eqb k0 k) eqn:E; simpl.
    + apply Platform_eqb_eq in E. subst k0.
      destruct (Platform_eqb k k') eqn:E'; [|reflexivity].
      apply Platform_eqb_eq in E'. contradiction.
    + now rewrite IH.
Qed.

Section PointSeries.
Context (f : ScenarioResult -> number).

Let assign (point : list (Platform * number)) (s : ScenarioResult) :=
  point_set point (platform s) (f s).

Lemma fold_assign_other (l : list ScenarioResult) acc k :
  ~ In k (map platform l) ->
  point_get (fold_left assign l acc) k = point_get acc k.
Proof.
  revert acc. induction l as [|x l IH]; intros acc Hk; simpl; [reflexivity|].
  rewrite IH by (intros H; apply Hk; now right).
  apply point_get_set_other. intros E. apply Hk. now left.
Qed.

Lemma fold_assign_get (l : list ScenarioResult) acc s :
  NoDup (map platform l) -> In s l ->
  point_get (fold_left assign l acc) (platform s) = Some (f s).
Proof.
  revert acc. induction l as [|x l IH]; intros acc Hnd Hs; [destruct Hs|].
  simpl in Hnd. inversion Hnd as [|? ? Hx Hl]; subst. simpl.
  destruct Hs as [->|Hs].
  - rewrite fold_assign_other by exact Hx. apply point_get_set_same.
  - now apply IH.
Qed.
End PointSeries.

Lemma report_platforms_nodup (data : OrganizationData) :
  NoDup (map platform (scenarios (generateAnalysisReport data))).
Proof.
  apply (Permutation_NoDup
           (l := [ansible; kubernetes; terraform; puppet])).
  - symmetry.
    exact (Permutation_map platform (report_scenarios_perm data)).
  - repeat constructor; simpl; intuition discriminate.
Qed.

Lemma same_value_running_totals (y1 y2 y3 : number) :
  same_value (Fin 0 + y1) y1 /\
  same_value (Fin 0 + y1 + y2) (y1 + y2) /\
  same_value (Fin 0 + y1 + y2 + y3) (y1 + y2 + y3).
Proof.
  destruct y1, y2, y3; simpl; repeat split; ring.
Qed.

Lemma same_value_first_year (c : number) :
  same_value (c * Fin 1 * (Fin 1 + (Fin 1 - Fin 1) * Fin 0.025)) c.
Proof.
  destruct c as [c| | |]; [simpl; ring|vm_compute; exact I ..].
Qed.

(** X23: the cumulative timeline of the report has the four points 'Year 0'
    to 'Year 3'; its current-state line starts at 0 and is the current TCO
    at 'Year 1'; and the line of every scenario has one value per point: 0,
    then its year-1 cost, then its year-1 and year-2 costs added up, and at
    'Year 3' its three-year total. *)
Theorem timeline_running_totals (data : OrganizationData) :
  let r := generateAnalysisReport data in
  let c := totalAnnualTco (costBreakdown r) in
  exists p0 p1 p2 p3,
    TimelineChart_chartData (scenarios r) c = [p0; p1; p2; p3] /\
    map year [p0; p1; p2; p3] = ["Year 0"; "Year 1"; "Year 2"; "Year 3"]%string /\
    currentChef p0 = Fin 0 /\
    same_value (currentChef p1) c /\
    forall s, In s (scenarios r) ->
      exists v1 v2 v3,
        point_get (series p0) (platform s) = Some (Fin 0) /\
        point_get (series p1) (platform s) = Some v1 /\
        point_get (series p2) (platform s) = Some v2 /\
        point_get (series p3) (platform s) = Some v3 /\
        same_value v1 (year1Cost s) /\
        same_value v2 (year1Cost s + year2Cost s) /\
        same_value v3 (threeYearTotal s).
Proof.
  cbv zeta.
  pose proof (report_platforms_nodup data) as Hnd.
  unfold TimelineChart_chartData.
  cbn [List.length seq combine map Nat.eqb Nat.leb].
  do 4 eexists. split; [reflexivity|]. split; [reflexivity|].
  split; [reflexivity|]. split.
  - cbn [currentChef]. apply same_value_first_year.
  - intros s Hs. cbn [series].
    rewrite (fold_assign_get (fun _ => Fin 0) _ _ s Hnd Hs).
    rewrite (fold_assign_get (fun s => Fin 0 + year1Cost s) _ _ s Hnd Hs).
    rewrite (fold_assign_get (fun s => Fin 0 + year1Cost s + year2Cost s)
               _ _ s Hnd Hs).
    rewrite (fold_assign_get
               (fun s => Fin 0 + year1Cost s + year2Cost s + year3Cost s)
               _ _ s Hnd Hs).
    do 3 eexists. repeat (split; [reflexivity|]).
    apply report_scenarios_in in Hs. destruct Hs as (p & ->).
    change (threeYearTotal (calculateScenario data
              (calculateTCO data (calculateHealthMetrics data)) p None))
      with (let s := calculateScenario data
                       (calculateTCO data (calculateHealthMetrics data)) p None in
            year1Cost s + year2Cost s + year3Cost s).
    cbv zeta. apply same_value_running_totals.
Qed.

Lemma timeline_running_totals_witness :
  let r := generateAnalysisReport sampleData in
  List.length
    (TimelineChart_chartData (scenarios r) (totalAnnualTco (costBreakdown r))) =
  4%nat.
Proof.
  destruct (timeline_running_totals sampleData)
    as (p0 & p1 & p2 & p3 & H & _).
  cbv zeta. rewrite H. reflexivity.
Defined.

(** X24: for finite arguments with [min < max], the position of the gauge
    indicator is a finite percentage between 0 and 100: 0 up to [min], 100
    from [max] on, and proportional in between. *)
Theorem gauge_percentage_bounds (value min max healthyT warningT : number) :
  is_finite value = true -> is_finite min = true -> is_finite max = true ->
  (min <? max) = true ->
  exists p : Q,
    percentage (BenchmarkGauge value min max healthyT warningT) = Fin p /\
    (0 <= p <= 100)%Q /\
    ((val value <= val min)%Q -> (p == 0)%Q) /\
    ((val max <= val value)%Q -> (p == 100)%Q) /\
    ((val min <= val value <= val max)%Q ->
     (p == (val value - val min) / (val max - val min) * 100)%Q).
Proof.
  intros Hv Hlo Hhi Hlt.
  destruct value as [v| | |]; try discriminate Hv.
  destruct min as [lo| | |]; try discriminate Hlo.
  destruct max as [hi| | |]; try discriminate Hhi.
  simpl in Hlt. apply Qltb_lt in Hlt.
  assert (Hd : (0 < hi + - lo)%Q) by lra.
  unfold BenchmarkGauge, Math_max. cbn [percentage sub add neg val].
  rewrite (div_Fin_pos _ _ Hd). cbn [mul].
  set (e := ((v + - lo) / (hi + - lo) * 100)%Q).
  assert (Hk : (0 < 100 / (hi + - lo))%Q) by (apply Qlt_shift_div_l; lra).
  assert (Ee : (e == (v + - lo) * (100 / (hi + - lo)))%Q)
    by (subst e; field; lra).
  assert (E100 : (100 == (hi + - lo) * (100 / (hi + - lo)))%Q) by (field; lra).
  assert (Hsame : ((v - lo) / (hi - lo) * 100 == e)%Q) by (subst e; reflexivity).
  cbn [val]. setoid_rewrite Hsame.
  assert (Hle0 : (v <= lo -> e <= 0)%Q) by (intros; rewrite Ee; nra).
  assert (Hge0 : (lo <= v -> 0 <= e)%Q) by (intros; rewrite Ee; nra).
  assert (Hge100 : (hi <= v -> 100 <= e)%Q).
  { intros. rewrite Ee. rewrite E100 at 1. nra. }
  assert (Hle100 : (v <= hi -> e <= 100)%Q).
  { intros. rewrite Ee. rewrite E100 at 2. nra. }
  clearbody e. clear Ee E100 Hsame Hk.
  simpl. destruct (Qltb 0 e) eqn:E0; simpl.
  - destruct (Qltb e 100) eqn:E1; order_facts.
    + exists e. split; [reflexivity|]. repeat split; intros; lra.
    + exists 100%Q. split; [reflexivity|]. repeat split; intros; lra.
  - order_facts. assert (E1 : Qltb 0 100 = true) by reflexivity. rewrite E1.
    exists 0%Q. split; [reflexivity|].
    repeat split; intros; lra.
Qed.

Lemma gauge_percentage_bounds_witness :
  exists p : Q,
    percentage (BenchmarkGauge (Fin 60) (Fin 0) (Fin 200) (Fin 25) (Fin 100)) =
      Fin p /\ (0 <= p <= 100)%Q.
Proof.
  destruct (gauge_percentage_bounds (Fin 60) (Fin 0) (Fin 200) (Fin 25) (Fin 100)
              eq_refl eq_refl eq_refl eq_refl) as (p & Hp & Hb & _).
  exists p. split; assumption.
Defined.
